(** * WRSR Workshop IO: the SteamCMD supervisor of [__init__.py]

    A shallow embedding of the add-on's background-process supervisor
    (identifier store, process runner, output scanner, completion pollers,
    configuration-file detection) and the properties its specification
    states about it.

    Conventions.
    - A Python [str] is a [list ascii]; a character is a code point below
      256, so the tables for [str.isspace], [\d] and [\w] are the Unicode
      ones cut at Latin-1.
    - A [pathlib.Path] is the list of its parts.
    - A Python dict with string keys is a [gmap string _]; dict and list
      objects that the code shares between the operator, the worker thread
      and the timer callback live in an explicit store, and are referred to
      by index.
    - The external world (files, the SteamCMD process) is explicit data:
      a file system maps paths to nodes, a process is what [Popen] did and,
      when it started, the lines its output iterator yields and its exit
      code. *)

From Stdlib Require Import ZArith Ascii String.
From stdpp Require Import gmap strings list.

(** ** Python strings *)

Abbreviation str := (list ascii).

(** A string literal of the source. *)
Definition lit (s : string) : str := list_ascii_of_string s.

Module PyStr.

Definition code (c : ascii) : N := N_of_ascii c.

(** [str.isspace] on one character: TAB, LF, VT, FF, CR, the four
    separators FS, GS, RS, US, the space, NEL and the no-break space. *)
Definition isspace (c : ascii) : bool :=
  let n := code c in
  ((9 <=? n) && (n <=? 13) || (28 <=? n) && (n <=? 32)
   || (n =? 133) || (n =? 160))%N.

(** [s.lstrip()] *)
Fixpoint lstrip (s : str) : str :=
  match s with
  | [] => []
  | c :: t => if isspace c then lstrip t else s
  end.

(** [s.rstrip()]: the trailing run of whitespace is dropped. *)
Fixpoint rstrip (s : str) : str :=
  match s with
  | [] => []
  | c :: t =>
      match rstrip t with
      | [] => if isspace c then [] else [c]
      | r => c :: r
      end
  end.

(** [s.strip()] *)
Definition strip (s : str) : str := lstrip (rstrip s).

(** [s.startswith(p)] *)
Fixpoint startswith (p s : str) : bool :=
  match p, s with
  | [], _ => true
  | _ :: _, [] => false
  | a :: p', b :: s' => Ascii.eqb a b && startswith p' s'
  end.

(** [sub in s] *)
Fixpoint contains (sub s : str) : bool :=
  startswith sub s ||
  match s with
  | [] => false
  | _ :: t => contains sub t
  end.

End PyStr.

(** ** The pattern [r"\b(76\d{15})\b"] *)

Module Re.

(** [\d] on a [str] pattern: a Unicode decimal digit. *)
Definition is_digit (c : ascii) : bool :=
  let n := PyStr.code c in ((48 <=? n) && (n <=? 57))%N.

(** [\w] on a [str] pattern: alphanumeric ([str.isalnum]) or underscore. *)
Definition is_word (c : ascii) : bool :=
  let n := PyStr.code c in
  ((48 <=? n) && (n <=? 57) || (65 <=? n) && (n <=? 90) || (n =? 95)
   || (97 <=? n) && (n <=? 122)
   || (n =? 170) || (n =? 178) || (n =? 179) || (n =? 181) || (n =? 185)
   || (n =? 186) || (188 <=? n) && (n <=? 190)
   || (192 <=? n) && (n <=? 214) || (216 <=? n) && (n <=? 246)
   || (248 <=? n) && (n <=? 255))%N.

(** The pieces the pattern is made of. The one group spans every
    consuming piece, so [group(1)] is the matched text. *)
Inductive atom : Type :=
| WordBoundary              (* \b *)
| Char (c : ascii)          (* a literal character *)
| Digit.                    (* \d *)

#[global] Instance atom_eq_dec : EqDecision atom.
Proof. solve_decision. Defined.

Definition pattern : list atom :=
  [WordBoundary; Char "7"; Char "6"] ++ replicate 15 Digit ++ [WordBoundary].

(** The number of characters a match of the atoms consumes. *)
Definition width (p : list atom) : nat :=
  length (filter (λ a, a ≠ WordBoundary) p).

(** Every literal character of the atoms is a word character. *)
Definition wordy (p : list atom) : Prop :=
  Forall (λ a, match a with Char c => is_word c = true | _ => True end) p.

Definition word_at (c : option ascii) : bool :=
  match c with Some x => is_word x | None => false end.

(** Match the atoms at the head of [s]; [prev] is the character before
    this position ([None] at the start of the text). The result is the
    text consumed. *)
Fixpoint match_atoms (prev : option ascii) (p : list atom) (s : str)
  : option str :=
  match p with
  | [] => Some []
  | WordBoundary :: p' =>
      if xorb (word_at prev) (word_at (head s))
      then match_atoms prev p' s else None
  | Char c :: p' =>
      match s with
      | x :: s' =>
          if Ascii.eqb x c
          then cons x <$> match_atoms (Some x) p' s' else None
      | [] => None
      end
  | Digit :: p' =>
      match s with
      | x :: s' =>
          if is_digit x
          then cons x <$> match_atoms (Some x) p' s' else None
      | [] => None
      end
  end.

Fixpoint search_from (prev : option ascii) (s : str) : option str :=
  match match_atoms prev pattern s with
  | Some g => Some g
  | None =>
      match s with
      | [] => None
      | c :: t => search_from (Some c) t
      end
  end.

(** [re.search(pattern, s)], then [m.group(1)]: the leftmost match. *)
Definition search (s : str) : option str := search_from None s.

(** Scanning for [re.findall]: [skip] characters of the last match are
    still to be passed before the next attempt. *)
Fixpoint findall_from (skip : nat) (prev : option ascii) (s : str)
  : list str :=
  match s with
  | [] => []
  | c :: t =>
      match skip with
      | S k => findall_from k (Some c) t
      | O =>
          match match_atoms prev pattern s with
          | Some g => g :: findall_from (length g - 1) (Some c) t
          | None => findall_from 0 (Some c) t
          end
      end
  end.

(** [re.findall(pattern, s)]: the matches from left to right, none
    overlapping another. *)
Definition findall (s : str) : list str := findall_from 0 None s.

End Re.

(** ** Text-mode files *)

Definition LF : ascii := ascii_of_N 10.
Definition CR : ascii := ascii_of_N 13.

(** The platform: it fixes [os.linesep]. *)
Inductive platform : Type := Posix | Windows.

Definition linesep (os : platform) : str :=
  match os with Posix => [LF] | Windows => [CR; LF] end.

Module TextIO.

(** Writing through a text-mode file opened with [newline=None] (what
    [Path.write_text] does): every ["\n"] becomes [os.linesep]. *)
Fixpoint nl_out (os : platform) (s : str) : str :=
  match s with
  | [] => []
  | c :: t => (if Ascii.eqb c LF then linesep os else [c]) ++ nl_out os t
  end.

(** Reading through a text-mode file opened with [newline=None] (what
    [Path.read_text] does): universal newlines, ["\r\n"] and a lone
    ["\r"] both come back as ["\n"]. *)
Fixpoint nl_in (s : str) : str :=
  match s with
  | [] => []
  | c :: t =>
      if Ascii.eqb c CR
      then LF :: match t with
                 | c' :: t' => if Ascii.eqb c' LF then nl_in t' else nl_in t
                 | [] => []
                 end
      else c :: nl_in t
  end.

End TextIO.

(** ** Paths and the file system *)

(** A [pathlib.Path], by its parts; the path of the empty string has none. *)
Abbreviation Path := (list string).

Definition Path_of (s : string) : Path := if decide (s = EmptyString) then [] else [s].

(** [p / name] *)
Definition joinpath (p : Path) (name : string) : Path := p ++ [name].

(** [p.parent] *)
Definition parent (p : Path) : Path := removelast p.

Definition sep (os : platform) : string :=
  match os with Posix => "/" | Windows => "\" end%string.

(** [str(p)]; the path without parts prints as a dot. *)
Definition path_str (os : platform) (p : Path) : str :=
  match p with
  | [] => lit "."
  | a :: rest =>
      lit (fold_left (fun acc x => (acc +:+ sep os +:+ x)%string) rest a)
  end.

(** What can raise in the modelled code. *)
Inductive exn : Type :=
| OSError (msg : str)
| AttributeError (msg : str)
| NameError (msg : str).

Definition exn_str (e : exn) : str :=
  match e with OSError m | AttributeError m | NameError m => m end.

Inductive result (A : Type) : Type :=
| Ok (a : A)
| Raise (e : exn).
Arguments Ok {A} a.
Arguments Raise {A} e.

(** A file-system entry. The data of a file are its decoded characters as
    they lie on disk, before newline translation. A [ReadOnly] file cannot
    be opened for writing; a [Directory] exists and cannot be opened as a
    file at all. *)
Inductive node : Type :=
| Regular (data : str)
| ReadOnly (data : str)
| Directory.

Module Fs.

(** [p.exists()] *)
Definition exists_ (fs : gmap Path node) (p : Path) : bool :=
  bool_decide (is_Some (fs !! p)).

(** [p.read_text(encoding="utf-8")] *)
Definition read_text (fs : gmap Path node) (p : Path) : result str :=
  match fs !! p with
  | Some (Regular d) | Some (ReadOnly d) => Ok (TextIO.nl_in d)
  | Some Directory => Raise (OSError (lit "Is a directory"))
  | None => Raise (OSError (lit "No such file or directory"))
  end.

(** The path can be opened for writing: it is free or a plain file. *)
Definition writable (fs : gmap Path node) (p : Path) : bool :=
  match fs !! p with
  | Some (ReadOnly _) | Some Directory => false
  | Some (Regular _) | None => true
  end.

(** [p.write_text(data, encoding="utf-8")]: the file is created or
    replaced. *)
Definition write_text (os : platform) (fs : gmap Path node) (p : Path)
    (data : str) : result (gmap Path node) :=
  match fs !! p with
  | Some (ReadOnly _) => Raise (OSError (lit "Permission denied"))
  | Some Directory => Raise (OSError (lit "Is a directory"))
  | Some (Regular _) | None => Ok (<[p := Regular (TextIO.nl_out os data)]> fs)
  end.

End Fs.

(** ** Shared state *)

(** What a modelled Python expression can evaluate to when the code looks
    an attribute up on a worker object. *)
Inductive pyval : Type :=
| VStr (x : str)
| VStrs (l : list str)
| VStatusLines          (* the list object [prefs._status_lines] *)
| VDict (r : nat)       (* a dict object of the store *)
| VPrefs                (* the preferences object *)
| VOther.               (* thread machinery the add-on never inspects *)

(** The two worker classes, each with what its [__init__] stores. The
    [out_buffer] of every worker is the one list [prefs._status_lines]
    (a class attribute that is cleared and appended to, never rebound), and
    [prefs_ref] is the one preferences object; [done_flag] is the dict
    object that [prefs._worker_done] named when the worker was built. *)
Inductive worker_obj : Type :=
| SteamCmdWorker (username password : str) (cmd_args : list str) (done_flag : nat)
| SteamCmdBuildWorker (cmd_args : list str) (done_flag : nat).

(** A worker with its thread and its timer callback. *)
Record job : Type := mkJob {
  j_worker : worker_obj;
  j_alive : bool;       (* [worker.is_alive()] *)
  j_timer : bool        (* the callback is still registered *)
}.

(** Effects that leave the program. *)
Inductive event : Type :=
| ThreadStart (j : nat)                     (* [worker.start()] *)
| TimerRegister (j : nat)                   (* [bpy.app.timers.register] *)
| Popen (cmd : list str) (cwd : str)        (* [subprocess.Popen] *)
| ReadText (p : Path)                       (* [Path.read_text] *)
| Print (msg : str)                         (* [print] *)
| Report (level : string) (msg : str)       (* [self.report] *)
| TagRedraw.                                (* redraw of the PREFERENCES areas *)

Record State : Type := mkState {
  steam_username : str;
  steam_password : str;
  steamid64 : str;                     (* [prefs.steamid64] *)
  status_lines : list str;             (* the list [prefs._status_lines] *)
  dicts : list (gmap string bool);     (* store of flag dicts *)
  worker_done : nat;                   (* the dict [prefs._worker_done] names *)
  jobs : list job;
  fs : gmap Path node;
  events : list event
}.

Definition with_steamid64 (x : str) (s : State) : State :=
  mkState (steam_username s) (steam_password s) x (status_lines s) (dicts s)
          (worker_done s) (jobs s) (fs s) (events s).
Definition with_status_lines (l : list str) (s : State) : State :=
  mkState (steam_username s) (steam_password s) (steamid64 s) l (dicts s)
          (worker_done s) (jobs s) (fs s) (events s).
Definition with_dicts (d : list (gmap string bool)) (s : State) : State :=
  mkState (steam_username s) (steam_password s) (steamid64 s) (status_lines s) d
          (worker_done s) (jobs s) (fs s) (events s).
Definition with_worker_done (r : nat) (s : State) : State :=
  mkState (steam_username s) (steam_password s) (steamid64 s) (status_lines s)
          (dicts s) r (jobs s) (fs s) (events s).
Definition with_jobs (js : list job) (s : State) : State :=
  mkState (steam_username s) (steam_password s) (steamid64 s) (status_lines s)
          (dicts s) (worker_done s) js (fs s) (events s).
Definition with_fs (f : gmap Path node) (s : State) : State :=
  mkState (steam_username s) (steam_password s) (steamid64 s) (status_lines s)
          (dicts s) (worker_done s) (jobs s) f (events s).
Definition log (e : event) (s : State) : State :=
  mkState (steam_username s) (steam_password s) (steamid64 s) (status_lines s)
          (dicts s) (worker_done s) (jobs s) (fs s) (events s ++ [e]).

(** [out_buffer.append(line)] on the shared list. *)
Definition append_line (line : str) (s : State) : State :=
  with_status_lines (status_lines s ++ [line]) s.

(** [d.get(key)] on the dict object [r]. *)
Definition get_flag (s : State) (r : nat) (key : string) : option bool :=
  dicts s !! r ≫= (λ d, d !! key).

(** [d[key] = v] on the dict object [r]. *)
Definition set_flag (r : nat) (key : string) (v : bool) (s : State) : State :=
  match dicts s !! r with
  | Some d => with_dicts (<[r := <[key := v]> d]> (dicts s)) s
  | None => s
  end.

(** Truth value of [d.get(key)] and of [d.get(key, False)]. *)
Definition flag_true (s : State) (r : nat) (key : string) : bool :=
  default false (get_flag s r key).

(** Truth value of a [str]. *)
Definition nonempty (x : str) : bool := negb (bool_decide (x = [])).

(** The class attributes [_status_lines = []] and
    [_worker_done = {"ok": False, "running": False}], with the preference
    properties at their defaults. *)
Definition initial (username password : str) (f : gmap Path node) : State :=
  mkState username password [] []
          [ {[ "ok"%string := false; "running"%string := false ]} ] 0 [] f [].

(** What [subprocess.Popen] and the process did: the call raised, or the
    process started, its output iterator yields [out] line by line (line
    ends included) and it exits with [returncode]. *)
Inductive popen_result : Type :=
| PopenRaises (e : exn)
| Started (out : list str) (returncode : Z).

(** Operator results of the host and what a timer callback returns:
    [None] to stop, [0.5] to be called again. *)
Inductive op_result : Type := FINISHED | CANCELLED.
Inductive timer_result : Type := Stop | Again.

(** ** The output scanner *)

(** The locals of the reading loop of [SteamCmdWorker.run]. *)
Record scan : Type := mkScan {
  buf : list str;                    (* [self.out_buffer] *)
  login_ok : bool;
  steamid_candidate : option str
}.

Definition tail_limit : nat := 50.

(** [out_buffer.append(line)], then [del out_buffer[0]] when the list is
    longer than [tail_limit]. *)
Definition push_line (b : list str) (line : str) : list str :=
  let b' := b ++ [line] in
  if (tail_limit <? length b')%nat then drop 1 b' else b'.

(** The success markers of the login heuristic. *)
Definition marker1 : str := lit "Logged in OK".
Definition marker2 : str := lit "Waiting for user info...OK".

(** A line shows one of the markers. *)
Definition has_marker (line : str) : bool :=
  PyStr.contains marker1 line || PyStr.contains marker2 line.

(** One turn of [for line in proc.stdout] in [SteamCmdWorker.run]. *)
Definition scan_line (sc : scan) (raw : str) : scan :=
  let line := PyStr.rstrip raw in
  let b := push_line (buf sc) line in
  let ok := if PyStr.contains marker1 line || PyStr.contains marker2 line
            then true else login_ok sc in
  let cand := match Re.search line with
              | Some g => Some g
              | None => steamid_candidate sc
              end in
  mkScan b ok cand.

(** One turn of [for line in proc.stdout] in [SteamCmdBuildWorker.run]. *)
Definition build_line (b : list str) (raw : str) : list str :=
  push_line b (PyStr.rstrip raw).

(** ** The add-on on a host *)

Definition DQ : ascii := ascii_of_N 34.
Definition quoted (x : string) : str := DQ :: lit x ++ [DQ].

(** The manifest written by [WRSR_OT_CreateNewItem.execute]. *)
Definition vdf_text : str :=
  quoted "workshopitem" ++ [LF] ++
  lit "{" ++ [LF] ++
  lit "   " ++ quoted "appid" ++ lit " " ++ quoted "784150" ++ [LF] ++
  lit "   " ++ quoted "contentfolder" ++ lit " " ++ quoted EmptyString ++ [LF] ++
  lit "   " ++ quoted "previewfile" ++ lit " " ++ quoted EmptyString ++ [LF] ++
  lit "   " ++ quoted "visibility" ++ lit " " ++ quoted "2" ++ [LF] ++
  lit "   " ++ quoted "title" ++ lit " " ++ quoted "New Workshop Item" ++ [LF] ++
  lit "   " ++ quoted "description" ++ lit " " ++ quoted "Created via Blender addon" ++ [LF] ++
  lit "}" ++ [LF].

(** The names that [threading.Thread] documents, which both worker
    classes inherit; its private names, all starting with an underscore,
    are left out. *)
Definition thread_attrs : list string :=
  ["name"; "ident"; "native_id"; "daemon"; "start"; "run"; "join";
   "is_alive"; "getName"; "setName"; "isDaemon"; "setDaemon"]%string.

(** The instance dictionary that [__init__] fills. *)
Definition instance_attrs (w : worker_obj) : gmap string pyval :=
  match w with
  | SteamCmdWorker u p a d =>
      {[ "username"%string := VStr u; "password"%string := VStr p;
         "cmd_args"%string := VStrs a; "out_buffer"%string := VStatusLines;
         "done_flag"%string := VDict d; "prefs_ref"%string := VPrefs ]}
  | SteamCmdBuildWorker a d =>
      {[ "cmd_args"%string := VStrs a; "out_buffer"%string := VStatusLines;
         "done_flag"%string := VDict d ]}
  end.

Definition class_name (w : worker_obj) : string :=
  match w with
  | SteamCmdWorker _ _ _ _ => "SteamCmdWorker"
  | SteamCmdBuildWorker _ _ => "SteamCmdBuildWorker"
  end.

(** [worker.<name>] *)
Definition getattr (w : worker_obj) (name : string) : result pyval :=
  match instance_attrs w !! name with
  | Some v => Ok v
  | None =>
      if bool_decide (name ∈ thread_attrs) then Ok VOther
      else Raise (AttributeError
                    (lit ("'" +:+ class_name w +:+ "' object has no attribute '"
                          +:+ name +:+ "'")))
  end.

(** Truth value of a looked-up attribute. *)
Definition truthy (s : State) (v : pyval) : bool :=
  match v with
  | VStr x => nonempty x
  | VStrs l => negb (bool_decide (l = []))
  | VStatusLines => negb (bool_decide (status_lines s = []))
  | VDict r => negb (bool_decide (default ∅ (dicts s !! r) = ∅))
  | VPrefs | VOther => true
  end.

Section Host.

(** The platform and the directory of the add-on ([_addon_dir()]). *)
Variable os : platform.
Variable _addon_dir : Path.

Definition bundled_steamcmd_path : Path :=
  joinpath (joinpath _addon_dir "steamcmd") "steamcmd.exe".

Definition steamid64_txt_path : Path := joinpath _addon_dir "steamid64.txt".

Definition write_steamid64_to_file (steamid64 : str) (s : State) : State :=
  let p := steamid64_txt_path in
  match Fs.write_text os (fs s) p (PyStr.strip steamid64 ++ [LF]) with
  | Ok f => with_fs f s
  | Raise e =>
      log (Print (lit "[wrsr_workshop_io] Failed to write steamid64.txt: "
                  ++ exn_str e)) s
  end.

Definition read_steamid64_from_file (s : State) : State * str :=
  let p := steamid64_txt_path in
  if Fs.exists_ (fs s) p then
    let s := log (ReadText p) s in
    match Fs.read_text (fs s) p with
    | Ok t => (s, PyStr.strip t)
    | Raise _ => (s, [])
    end
  else (s, []).

(** [os.getenv(key, default)] *)
Definition getenv (env : gmap string string) (key dflt : string) : string :=
  default dflt (env !! key).

Definition _default_steam_paths (env : gmap string string) : list Path :=
  let candidates :=
    [ joinpath (joinpath (joinpath
        (Path_of (getenv env "PROGRAMFILES(X86)" "C:\\Program Files (x86)"))
        "Steam") "config") "loginusers.vdf";
      joinpath (joinpath (joinpath
        (Path_of (getenv env "PROGRAMFILES" "C:\\Program Files"))
        "Steam") "config") "loginusers.vdf";
      Path_of (getenv env "STEAM_CONFIG" EmptyString) ] in
  (* a Path object is always true, so only its text is tested *)
  filter (λ p, path_str os p ≠ []) candidates.

(** *** Starting a job *)

(** [prefs._status_lines.clear()] and
    [prefs._worker_done = {"ok": False, "running": True}]: the list is
    emptied in place, the name is bound to a new dict. *)
Definition reset_status (s : State) : State :=
  let s := with_status_lines [] s in
  let r := length (dicts s) in
  let s := with_dicts (dicts s ++ [ {[ "ok"%string := false;
                                       "running"%string := true ]} ]) s in
  with_worker_done r s.

(** [worker.start()] *)
Definition start_worker (w : worker_obj) (s : State) : State :=
  let j := length (jobs s) in
  let s := with_jobs (jobs s ++ [mkJob w true false]) s in
  log (ThreadStart j) s.

(** [bpy.app.timers.register(...)] with the callback that closes over
    the worker just started. *)
Definition register_timer (s : State) : State :=
  let j := (length (jobs s) - 1)%nat in
  let s := with_jobs (alter (λ t, mkJob (j_worker t) (j_alive t) true) j (jobs s)) s in
  log (TimerRegister j) s.

(** [WRSR_OT_LoginSteamCmd.execute] up to and including [worker.start()]. *)
Definition login_spawn (s : State) : State :=
  let s := reset_status s in
  let login_args :=
    [path_str os bundled_steamcmd_path; lit "+login";
     steam_username s; steam_password s; lit "+quit"] in
  let worker := SteamCmdWorker (steam_username s) (steam_password s)
                               login_args (worker_done s) in
  start_worker worker s.

(** [WRSR_OT_LoginSteamCmd.execute] *)
Definition login_execute (s : State) : State * op_result :=
  (register_timer (login_spawn s), FINISHED).

(** [WRSR_OT_CreateNewItem.execute]; the manifest is written outside any
    [try], so a failure to write it leaves the operator by an exception,
    after the reset and before any thread. *)
Definition build_execute (s : State) : State * result op_result :=
  let s := reset_status s in
  let vdf_path := joinpath _addon_dir "workshop.vdf" in
  match Fs.write_text os (fs s) vdf_path vdf_text with
  | Raise e => (s, Raise e)
  | Ok f =>
      let s := with_fs f s in
      let args :=
        [path_str os bundled_steamcmd_path; lit "+login";
         steam_username s; steam_password s;
         lit "+workshop_build_item"; path_str os vdf_path; lit "+quit"] in
      let worker := SteamCmdBuildWorker args (worker_done s) in
      (register_timer (start_worker worker s), Ok FINISHED)
  end.

(** *** The worker threads *)

(** [SteamCmdWorker.run] *)
Definition SteamCmdWorker_run (username password : str) (done_flag : nat)
    (beh : popen_result) (s : State) : State :=
  let scmd := bundled_steamcmd_path in
  if negb (Fs.exists_ (fs s) scmd) then
    let s := append_line (lit "steamcmd not found: " ++ path_str os scmd) s in
    set_flag done_flag "ok" false s
  else
    let cmd := [path_str os scmd; lit "+login"; username; password;
                lit "+quit"] in
    let s := log (Popen cmd (path_str os (parent scmd))) s in
    match beh with
    | PopenRaises e =>
        let s := append_line (lit "Failed to start steamcmd: " ++ exn_str e) s in
        set_flag done_flag "ok" false s
    | Started out returncode =>
        let sc := fold_left scan_line out (mkScan (status_lines s) false None) in
        let s := with_status_lines (buf sc) s in
        let s := set_flag done_flag "ok"
                          (login_ok sc && (returncode =? 0)%Z) s in
        match steamid_candidate sc with
        | Some c =>
            if nonempty c
            then with_steamid64 c (write_steamid64_to_file c s)
            else s
        | None => s
        end
    end.

(** [SteamCmdBuildWorker.run] *)
Definition SteamCmdBuildWorker_run (cmd_args : list str) (done_flag : nat)
    (beh : popen_result) (s : State) : State :=
  let scmd := bundled_steamcmd_path in
  if negb (Fs.exists_ (fs s) scmd) then
    let s := append_line (lit "steamcmd not found: " ++ path_str os scmd) s in
    set_flag done_flag "ok" false s
  else
    let s := log (Popen cmd_args (path_str os (parent scmd))) s in
    match beh with
    | PopenRaises e =>
        let s := append_line (lit "Failed to start steamcmd: " ++ exn_str e) s in
        set_flag done_flag "ok" false s
    | Started out returncode =>
        let s := with_status_lines (fold_left build_line out (status_lines s)) s in
        set_flag done_flag "ok" (returncode =? 0)%Z s
    end.

(** The [run] method of a worker object. *)
Definition run (w : worker_obj) (beh : popen_result) (s : State) : State :=
  match w with
  | SteamCmdWorker u p _ d => SteamCmdWorker_run u p d beh s
  | SteamCmdBuildWorker a d => SteamCmdBuildWorker_run a d beh s
  end.

(** *** The completion pollers *)

(** [_check_done] of [WRSR_OT_LoginSteamCmd.execute], for the job whose
    worker it closes over. [prefs._worker_done] is looked up at each
    call. *)
Definition _check_done (t : job) (s : State) : State * timer_result :=
  if flag_true s (worker_done s) "running" && negb (j_alive t) then
    let s := set_flag (worker_done s) "running" false s in
    let ok := flag_true s (worker_done s) "ok" in
    let s :=
      if ok then
        if negb (nonempty (steamid64 s)) then
          let '(s, existing) := read_steamid64_from_file s in
          if nonempty existing then with_steamid64 existing s else s
        else s
      else append_line (lit "Login did not complete successfully.") s in
    (log TagRedraw s, Stop)
  else (s, Again).

(** [_check] of [WRSR_OT_CreateNewItem.execute]. The name [scene] is
    bound nowhere in its scope. *)
Definition _check (t : job) (s : State) : State * result timer_result :=
  if flag_true s (worker_done s) "running" && negb (j_alive t) then
    let s := set_flag (worker_done s) "running" false s in
    match getattr (j_worker t) "new_item_id" with
    | Raise e => (s, Raise e)
    | Ok v =>
        if truthy s v
        then (s, Raise (NameError (lit "name 'scene' is not defined")))
        else (log (Report "ERROR" (lit "Failed to create Workshop item")) s,
              Ok Stop)
    end
  else (s, Ok Again).

(** The callback registered for a job. *)
Definition poll (t : job) (s : State) : State * result timer_result :=
  match j_worker t with
  | SteamCmdWorker _ _ _ _ =>
      let '(s, r) := _check_done t s in (s, Ok r)
  | SteamCmdBuildWorker _ _ => _check t s
  end.

(** *** Detection from the Steam configuration *)

(** The loop of [WRSR_OT_DetectSteamID.execute]; the result is [found].
    The file is read with [errors='ignore'], so only the opening and the
    reading can raise. *)
Fixpoint detect_loop (candidates : list Path) (s : State)
  : State * option str :=
  match candidates with
  | [] => (s, None)
  | vdf :: rest =>
      if Fs.exists_ (fs s) vdf then
        let s := log (ReadText vdf) s in
        match Fs.read_text (fs s) vdf with
        | Ok txt =>
            match Re.findall txt with
            | m0 :: _ => (s, Some m0)
            | [] => detect_loop rest s
            end
        | Raise e =>
            detect_loop rest
              (log (Print (lit "[wrsr_workshop_io] Could not read "
                           ++ path_str os vdf ++ lit ": " ++ exn_str e)) s)
        end
      else detect_loop rest s
  end.

Definition detect_warning : str :=
  lit "Could not detect SteamID64 automatically. Please enter it manually.".

(** [WRSR_OT_DetectSteamID.execute] *)
Definition detect_execute (env : gmap string string) (s : State)
  : State * op_result :=
  let '(s, found) := detect_loop (_default_steam_paths env) s in
  match found with
  | Some f =>
      if nonempty f then
        let s := with_steamid64 f s in
        let s := write_steamid64_to_file f s in
        (log (Report "INFO" (lit "Detected SteamID64: " ++ f)) s, FINISHED)
      else (log (Report "WARNING" detect_warning) s, CANCELLED)
  | None => (log (Report "WARNING" detect_warning) s, CANCELLED)
  end.

(** The part of [register] that syncs the preferences with the file. *)
Definition register (s : State) : State :=
  let '(s, existing) := read_steamid64_from_file s in
  if nonempty existing then with_steamid64 existing s else s.

(** *** The add-on as a transition system

    The user clicks, a worker thread runs, a timer fires. A thread body
    is one step: the pollers touch the shared state only once
    [is_alive()] is false, that is after the body has returned. A timer
    is dropped by the host once its callback returns [None] or raises. *)
Inductive action : Type :=
| ClickLogin
| ClickCreateNewItem
| ClickDetect (env : gmap string string)
| ThreadRuns (j : nat) (beh : popen_result)
| TimerFires (j : nat).

Definition step (a : action) (s : State) : State :=
  match a with
  | ClickLogin => (login_execute s).1
  | ClickCreateNewItem => (build_execute s).1
  | ClickDetect env => (detect_execute env s).1
  | ThreadRuns j beh =>
      match jobs s !! j with
      | Some t =>
          if j_alive t then
            let s := run (j_worker t) beh s in
            with_jobs (alter (λ t, mkJob (j_worker t) false (j_timer t)) j
                             (jobs s)) s
          else s
      | None => s
      end
  | TimerFires j =>
      match jobs s !! j with
      | Some t =>
          if j_timer t then
            let '(s, r) := poll t s in
            match r with
            | Ok Again => s
            | _ => with_jobs (alter (λ t, mkJob (j_worker t) (j_alive t) false)
                                    j (jobs s)) s
            end
          else s
      | None => s
      end
  end.

Definition steps (l : list action) (s : State) : State :=
  fold_left (λ s a, step a s) l s.

End Host.

(** ** Concrete hosts, used to evaluate the model *)

Definition demo_dir : Path := ["C:\addons\wrsr_workshop_io"%string].

(** A host where the bundled executable is present. *)
Definition demo_fs : gmap Path node :=
  {[ bundled_steamcmd_path demo_dir := Regular [] ]}.

Definition demo0 : State := initial (lit "user") (lit "pw") demo_fs.

(** A host without the executable. *)
Definition bare0 : State := initial (lit "user") (lit "pw") ∅.

(** The last [n] entries of a list. *)
Definition lastn {A} (n : nat) (l : list A) : list A := drop (length l - n) l.

(** What one candidate file offers to the detection: the leftmost
    identifier match of a file that is there and can be read. *)
Definition candidate_match (f : gmap Path node) (p : Path) : option str :=
  match Fs.read_text f p with
  | Ok txt => Re.search txt
  | Raise _ => None
  end.

(** The files read, in the order of the reads. *)
Definition reads (ev : list event) : list Path :=
  omap (λ e, match e with ReadText p => Some p | _ => None end) ev.

(** ** Named parts of the statements *)

(** The dict a new job gets. *)
Definition fresh_flags : gmap string bool :=
  {[ "ok"%string := false; "running"%string := true ]}.

(** The worker object that [WRSR_OT_LoginSteamCmd.execute] builds. *)
Definition login_worker (os : platform) (dir : Path) (s : State) : worker_obj :=
  SteamCmdWorker (steam_username s) (steam_password s)
    [path_str os (bundled_steamcmd_path dir); lit "+login";
     steam_username s; steam_password s; lit "+quit"]
    (length (dicts s)).

(** The worker object that [WRSR_OT_CreateNewItem.execute] builds. *)
Definition build_worker (os : platform) (dir : Path) (s : State) : worker_obj :=
  SteamCmdBuildWorker
    [path_str os (bundled_steamcmd_path dir); lit "+login";
     steam_username s; steam_password s; lit "+workshop_build_item";
     path_str os (joinpath dir "workshop.vdf"); lit "+quit"]
    (length (dicts s)).

(** The flag that [SteamCmdWorker.run] leaves in its [done_flag]. *)
Definition login_outcome (dir : Path) (s : State) (beh : popen_result) : bool :=
  Fs.exists_ (fs s) (bundled_steamcmd_path dir) &&
  match beh with
  | Started out returncode => existsb has_marker out && (returncode =? 0)%Z
  | PopenRaises _ => false
  end.

(** The dict object a worker holds as its [done_flag]. *)
Definition done_flag_of (w : worker_obj) : nat :=
  match w with
  | SteamCmdWorker _ _ _ d | SteamCmdBuildWorker _ d => d
  end.

(** Every reference to a flag dict points into the store. *)
Definition wf (s : State) : Prop :=
  (worker_done s < length (dicts s))%nat ∧
  Forall (λ t, (done_flag_of (j_worker t) < length (dicts s))%nat) (jobs s).

(** What no thread body, poller or detection touches: the size of the
    store, the binding of [prefs._worker_done] and the worker objects. *)
Definition same_refs (s s' : State) : Prop :=
  length (dicts s') = length (dicts s) ∧
  worker_done s' = worker_done s ∧
  j_worker <$> jobs s' = j_worker <$> jobs s.

(** The line the login poller appends for a job that did not succeed. *)
Definition login_failed : str := lit "Login did not complete successfully.".

(** A job that can no longer act: its thread has ended and its poller
    has stopped. *)
Definition quiet (t : job) : Prop := j_alive t = false ∧ j_timer t = false.

(** The line and the identifier of the login scenario. *)
Definition accepted_line : str := lit "Accepted login for 76561198012345678".
Definition accepted_id : str := lit "76561198012345678".

(** One login job run to its end on [demo0]. *)
Definition after_one_job : State :=
  steps Windows demo_dir
    [ClickLogin; ThreadRuns 0 (Started [lit "Logged in OK"] 0); TimerFires 0]
    demo0.

(** A successful job seen by its poller: the preferences already name an
    identifier and the file names another. *)
Definition kept_state : State :=
  mkState (lit "user") (lit "pw") (lit "76561198012345678") []
    [ {[ "ok"%string := true; "running"%string := true ]} ] 0
    [mkJob (SteamCmdWorker [] [] [] 0) false true]
    {[ steamid64_txt_path demo_dir := Regular (lit "76561198000000000") ]} [].

(** A host where only the user-given path holds a configuration file. *)
Definition detect_env : gmap string string :=
  {[ "STEAM_CONFIG"%string := "D:\steam\loginusers.vdf"%string ]}.
Definition detect_fs : gmap Path node :=
  {[ ["D:\steam\loginusers.vdf"%string]
     := Regular (lit "users 76561198012345678 other 76561198000000000") ]}.

(** ** Reading the pattern declaratively *)

(** The character before the position reached after [a], when [prev] was
    the character before [a]. *)
Definition prev_after (prev : option ascii) (a : str) : option ascii :=
  match last a with
  | Some c => Some c
  | None => prev
  end.

(** A text the pattern can match: 7, 6 and fifteen digits. *)
Definition identifier (g : str) : Prop :=
  ∃ d, g = "7"%char :: "6"%char :: d ∧ length d = 15%nat ∧
       Forall (λ c, Re.is_digit c = true) d.

(** [g] stands in a text between [a] and [b] as a whole word: no word
    character touches it on either side. *)
Definition occurrence (a g b : str) : Prop :=
  identifier g ∧ Re.word_at (last a) = false ∧ Re.word_at (head b) = false.

(** ** The status boxes of the two [draw] methods *)

(** A label of a status box: the running notice or a line of the log. *)
Inductive label : Type :=
| RunningLabel
| LineLabel (ln : str).

(** The box: the notice when [_worker_done.get("running", False)] holds,
    then a label for each line of [_status_lines[-n:]]. *)
Definition status_box (n : nat) (s : State) : list label :=
  (if flag_true s (worker_done s) "running" then [RunningLabel] else [])
  ++ (LineLabel <$> lastn n (status_lines s)).

(** [WRSR_WorkshopPrefs.draw] shows ten lines, [WORKSHOP_PT_Main.draw]
    six. *)
Definition prefs_status_box : State → list label := status_box 10.
Definition panel_status_box : State → list label := status_box 6.

(** ** Reachable states *)

(** No two workers hold the same dict as their [done_flag]. *)
Definition flags_distinct (s : State) : Prop :=
  NoDup (done_flag_of <$> (j_worker <$> jobs s)).

(** ** What a job leaves behind *)

(** The lines a worker thread leaves in a log that it found empty. *)
Definition job_lines (os : platform) (dir : Path) (f : gmap Path node)
    (beh : popen_result) : list str :=
  if Fs.exists_ f (bundled_steamcmd_path dir) then
    match beh with
    | Started out _ => lastn tail_limit (PyStr.rstrip <$> out)
    | PopenRaises e => [lit "Failed to start steamcmd: " ++ exn_str e]
    end
  else [lit "steamcmd not found: " ++ path_str os (bundled_steamcmd_path dir)].

(** An effect that starts nothing: no thread, no timer, no process. *)
Definition starts_nothing (e : event) : Prop :=
  match e with
  | ThreadStart _ | TimerRegister _ | Popen _ _ => False
  | ReadText _ | Print _ | Report _ _ | TagRedraw => True
  end.

(** A host whose identifier file is read-only. *)
Definition locked0 : State :=
  initial (lit "user") (lit "pw")
    {[ steamid64_txt_path demo_dir := ReadOnly (lit "76561198000000000") ]}.

(** * Properties *)

(** Refutes [x ∈ l] for a closed list [l] that does not hold [x]. *)
Ltac not_in_closed_list H :=
  repeat (apply elem_of_cons in H as [H|H]; [discriminate|]);
  by apply elem_of_nil in H.

(** ** Strings *)

Module PyStrFacts.
Import PyStr.

Lemma startswith_spec p s : startswith p s = true ↔ ∃ b, s = p ++ b.
Proof.
  revert s. induction p as [|a p IH]; intros s; simpl.
  - split; [eauto|done].
  - destruct s as [|b s].
    + split; [done|]. intros [k Hk]. discriminate.
    + rewrite andb_true_iff, IH. split.
      * intros [Hab [k ->]]. apply Ascii.eqb_eq in Hab as ->. eauto.
      * intros [k Hk]. simplify_eq. split; [apply Ascii.eqb_refl|eauto].
Qed.

Lemma contains_spec m s : contains m s = true ↔ ∃ a b, s = a ++ m ++ b.
Proof.
  induction s as [|c s IH]; simpl.
  - rewrite orb_false_r, startswith_spec. split.
    + intros [b Hb]. exists [], b. done.
    + intros (a & b & Hab). symmetry in Hab.
      apply app_eq_nil in Hab as [-> Hab].
      apply app_eq_nil in Hab as [-> ->]. exists []. done.
  - rewrite orb_true_iff, startswith_spec, IH. split.
    + intros [[b Hb]|(a & b & ->)].
      * exists [], b. done.
      * exists (c :: a), b. done.
    + intros (a & b & Hab). destruct a as [|a0 a]; simpl in Hab.
      * left. eauto.
      * right. simplify_eq. eauto.
Qed.

(** [rstrip] cuts a run of whitespace off the end. *)
Lemma rstrip_split s :
  ∃ ws, s = rstrip s ++ ws ∧ Forall (λ c, isspace c = true) ws.
Proof.
  induction s as [|c s (ws & Hs & Hws)]; simpl.
  - exists []. done.
  - destruct (rstrip s) as [|r0 r] eqn:Hr.
    + destruct (isspace c) eqn:Hc.
      * exists (c :: ws). simpl in Hs. subst s. split; [done|]. by constructor.
      * exists ws. simpl in Hs. by subst s.
    + exists ws. split; [|done]. simpl. by rewrite Hs at 1.
Qed.

Lemma rstrip_last s c : last (rstrip s) = Some c → isspace c = false.
Proof.
  revert c. induction s as [|a s IH]; intros c; simpl; [done|].
  destruct (rstrip s) as [|r0 r] eqn:Hr.
  - destruct (isspace a) eqn:Ha; simpl; [done|]. by intros [= <-].
  - rewrite last_cons_cons. apply IH.
Qed.

Lemma rstrip_spaces ws : Forall (λ c, isspace c = true) ws → rstrip ws = [].
Proof.
  induction 1 as [|c ws Hc _ IH]; simpl; [done|]. by rewrite IH, Hc.
Qed.

Lemma rstrip_app_spaces s ws :
  Forall (λ c, isspace c = true) ws → rstrip (s ++ ws) = rstrip s.
Proof.
  intros Hws. induction s as [|c s IH]; simpl.
  - by apply rstrip_spaces.
  - by rewrite IH.
Qed.

Lemma rstrip_fixed s :
  (∀ c, last s = Some c → isspace c = false) → rstrip s = s.
Proof.
  induction s as [|a s IH]; intros Hl; simpl; [done|].
  destruct s as [|b s].
  - simpl. by rewrite (Hl a).
  - rewrite IH; [done|]. intros c Hc. apply Hl. by rewrite last_cons_cons.
Qed.

Lemma lstrip_fixed s :
  (∀ c, head s = Some c → isspace c = false) → lstrip s = s.
Proof. destruct s as [|a s]; simpl; [done|]. intros H. by rewrite (H a). Qed.

Lemma lstrip_head s c : head (lstrip s) = Some c → isspace c = false.
Proof.
  induction s as [|a s IH]; simpl; [done|].
  destruct (isspace a) eqn:Ha; [done|]. simpl. by intros [= <-].
Qed.

Lemma lstrip_suffix s : ∃ ws, s = ws ++ lstrip s.
Proof.
  induction s as [|a s [ws IH]]; simpl.
  - by exists [].
  - destruct (isspace a).
    + exists (a :: ws). simpl. by rewrite IH at 1.
    + by exists [].
Qed.

Lemma strip_last s c : last (strip s) = Some c → isspace c = false.
Proof.
  unfold strip. intros Hc.
  destruct (lstrip_suffix (rstrip s)) as [ws Hws].
  apply (rstrip_last s). rewrite Hws.
  rewrite last_app, Hc. done.
Qed.

Lemma strip_head s c : head (strip s) = Some c → isspace c = false.
Proof. apply lstrip_head. Qed.

(** What is stripped stays as it is, also behind trailing whitespace. *)
Lemma strip_strip_spaces s ws :
  Forall (λ c, isspace c = true) ws → strip (strip s ++ ws) = strip s.
Proof.
  intros Hws. unfold strip at 1.
  rewrite rstrip_app_spaces by done.
  rewrite rstrip_fixed by apply strip_last.
  apply lstrip_fixed, strip_head.
Qed.

(** A substring that ends in a visible character is found in a line
    exactly when it is found in the right-stripped line. *)
Lemma contains_rstrip m c s :
  last m = Some c → isspace c = false →
  contains m (rstrip s) = contains m s.
Proof.
  intros Hm Hc. apply eq_true_iff_eq. rewrite !contains_spec.
  destruct (rstrip_split s) as (ws & Hs & Hws).
  apply last_Some in Hm as [m' ->]. split.
  - intros (a & b & Hab). exists a, (b ++ ws).
    rewrite Hs at 1. rewrite Hab. by rewrite <- !app_assoc.
  - intros (a & b & Hab). rewrite Hs in Hab at 1.
    replace (a ++ (m' ++ [c]) ++ b) with ((a ++ m' ++ [c]) ++ b) in Hab
      by (by rewrite <- !app_assoc).
    symmetry in Hab. apply app_eq_inv in Hab as [(k & Hk1 & Hk2)|(k & Hk1 & Hk2)].
    + destruct k as [|k0 k] using rev_ind.
      * exists a, []. rewrite app_nil_r in Hk1. rewrite <- Hk1.
        by rewrite app_nil_r.
      * clear IHk. exfalso.
        rewrite !app_assoc in Hk1. apply app_inj_tail in Hk1 as [_ <-].
        rewrite Hk2, !Forall_app, Forall_singleton in Hws.
        destruct Hws as [[_ Hws] _]. congruence.
    + exists a, k. rewrite Hk1. by rewrite <- !app_assoc.
Qed.

End PyStrFacts.

(** ** The pattern *)

Module ReFacts.
Import Re.

Lemma digit_is_word c : is_digit c = true → is_word c = true.
Proof. unfold is_digit, is_word. simpl. by intros ->. Qed.

Lemma space_not_word c : PyStr.isspace c = true → is_word c = false.
Proof.
  destruct c as [[] [] [] [] [] [] [] []]; vm_compute; congruence.
Qed.

Lemma pattern_wordy : wordy pattern.
Proof. unfold wordy, pattern. simpl. repeat constructor. Qed.

(** A match has the width of its atoms: 17 characters for [pattern]. *)
Lemma match_atoms_length prev p s g :
  match_atoms prev p s = Some g → length g = width p.
Proof.
  revert prev s g. induction p as [|a p IH]; intros prev s g; simpl.
  - by intros [= <-].
  - destruct a as [|c|]; unfold width; simpl.
    + destruct (xorb _ _); [|done]. apply IH.
    + destruct s as [|x s]; [done|]. destruct (Ascii.eqb x c); [|done].
      destruct (match_atoms (Some x) p s) as [g'|] eqn:Hg; [|done].
      simpl. intros [= <-]. simpl. f_equal. by eapply IH.
    + destruct s as [|x s]; [done|]. destruct (is_digit x); [|done].
      destruct (match_atoms (Some x) p s) as [g'|] eqn:Hg; [|done].
      simpl. intros [= <-]. simpl. f_equal. by eapply IH.
Qed.

Lemma match_pattern_length prev s g :
  match_atoms prev pattern s = Some g → length g = 17%nat.
Proof. apply match_atoms_length. Qed.

Lemma match_pattern_nil prev : match_atoms prev pattern [] = None.
Proof. unfold pattern. simpl. by destruct (xorb _ _). Qed.

(** Characters behind the text that are no word characters change no
    match: they stand to [\b] as the end of the text does. *)
Lemma match_atoms_app prev p x ws :
  wordy p → Forall (λ c, is_word c = false) ws →
  match_atoms prev p (x ++ ws) = match_atoms prev p x.
Proof.
  intros Hp Hws. revert prev x.
  induction Hp as [|a p Ha Hp IH]; intros prev x; simpl; [done|].
  destruct a as [|c|].
  - rewrite IH. destruct x as [|x0 x]; [|done].
    destruct Hws as [|w ws Hw Hws]; [done|]. simpl. by rewrite Hw.
  - destruct x as [|x0 x]; simpl; [|by rewrite IH].
    destruct Hws as [|w ws Hw Hws]; [done|].
    destruct (Ascii.eqb w c) eqn:Hwc; [|done].
    apply Ascii.eqb_eq in Hwc as ->. congruence.
  - destruct x as [|x0 x]; simpl; [|by rewrite IH].
    destruct Hws as [|w ws Hw Hws]; [done|].
    destruct (is_digit w) eqn:Hd; [|done].
    apply digit_is_word in Hd. congruence.
Qed.

Lemma search_from_nonword prev ws :
  Forall (λ c, is_word c = false) ws → search_from prev ws = None.
Proof.
  intros Hws. revert prev. induction Hws as [|w ws Hw Hws IH]; intros prev.
  - cbn [search_from]. by rewrite match_pattern_nil.
  - cbn [search_from].
    pose proof (match_atoms_app prev pattern [] (w :: ws) pattern_wordy) as E.
    simpl app in E. rewrite E, match_pattern_nil; [apply IH|by constructor].
Qed.

Lemma search_from_app prev x ws :
  Forall (λ c, is_word c = false) ws →
  search_from prev (x ++ ws) = search_from prev x.
Proof.
  intros Hws. revert prev. induction x as [|c x IH]; intros prev.
  - simpl app. rewrite search_from_nonword by done.
    cbn [search_from]. by rewrite match_pattern_nil.
  - simpl app. cbn [search_from].
    change (c :: x ++ ws) with ((c :: x) ++ ws).
    rewrite match_atoms_app by (done || apply pattern_wordy).
    by rewrite IH.
Qed.

(** Stripping the line end off a line does not change what is found. *)
Lemma search_rstrip raw : search (PyStr.rstrip raw) = search raw.
Proof.
  destruct (PyStrFacts.rstrip_split raw) as (ws & Hs & Hws).
  unfold search. rewrite Hs at 2. rewrite search_from_app; [done|].
  eapply Forall_impl; [exact Hws|]. apply space_not_word.
Qed.

(** The first element of [findall] is what [search] finds. *)
Lemma findall_from_head prev s :
  head (findall_from 0 prev s) = search_from prev s.
Proof.
  revert prev. induction s as [|c s IH]; intros prev.
  - cbn [findall_from search_from head]. by rewrite match_pattern_nil.
  - cbn [findall_from search_from].
    destruct (match_atoms prev pattern (c :: s)); [done|]. apply IH.
Qed.

Lemma findall_head s : head (findall s) = search s.
Proof. apply findall_from_head. Qed.

Lemma search_from_length prev s g : search_from prev s = Some g → length g = 17%nat.
Proof.
  revert prev. induction s as [|c s IH]; intros prev; cbn [search_from].
  - rewrite match_pattern_nil. done.
  - destruct (match_atoms prev pattern (c :: s)) eqn:Hm.
    + intros [= <-]. by eapply match_pattern_length.
    + apply IH.
Qed.

Lemma search_nonempty s g : search s = Some g → nonempty g = true.
Proof.
  intros Hg. apply search_from_length in Hg. by destruct g.
Qed.

End ReFacts.

(** ** Text-mode files *)

Module TextIOFacts.
Import TextIO.

(** Text without a carriage return comes back from the disk as it was
    written, whatever the platform's line separator. *)
Lemma nl_roundtrip os t : CR ∉ t → nl_in (nl_out os t) = t.
Proof.
  induction t as [|c t IH]; intros Hcr; simpl; [done|].
  apply not_elem_of_cons in Hcr as [Hc Ht].
  destruct (Ascii.eqb c LF) eqn:Hlf.
  - apply Ascii.eqb_eq in Hlf as ->.
    destruct os; simpl; by rewrite IH.
  - simpl. destruct (Ascii.eqb c CR) eqn:Hc'.
    + apply Ascii.eqb_eq in Hc'. congruence.
    + by rewrite IH.
Qed.

End TextIOFacts.

(** ** The shared state *)

Section StateFacts.

Lemma set_flag_dicts_length r k v s :
  length (dicts (set_flag r k v s)) = length (dicts s).
Proof.
  unfold set_flag. destruct (dicts s !! r); [|done].
  simpl. by rewrite length_insert.
Qed.

Lemma get_set_flag r k v s :
  (r < length (dicts s))%nat → get_flag (set_flag r k v s) r k = Some v.
Proof.
  intros Hr. unfold get_flag, set_flag.
  destruct (lookup_lt_is_Some_2 _ _ Hr) as [d Hd]. rewrite Hd. simpl.
  rewrite list_lookup_insert_eq by done. simpl. apply lookup_insert_eq.
Qed.

Lemma get_set_flag_other r k v s r' k' :
  k ≠ k' ∨ r ≠ r' → get_flag (set_flag r k v s) r' k' = get_flag s r' k'.
Proof.
  intros Hne. unfold get_flag, set_flag.
  destruct (dicts s !! r) as [d|] eqn:Hd; [|done]. simpl.
  destruct (decide (r = r')) as [<-|Hr].
  - rewrite list_lookup_insert_eq by (by eapply lookup_lt_Some).
    rewrite Hd. simpl. destruct Hne as [Hk|]; [|done].
    by rewrite lookup_insert_ne.
  - by rewrite list_lookup_insert_ne.
Qed.

Lemma get_flag_ext s s' r k :
  dicts s = dicts s' → get_flag s r k = get_flag s' r k.
Proof. unfold get_flag. by intros ->. Qed.

Lemma set_flag_frame r k v s :
  status_lines (set_flag r k v s) = status_lines s ∧
  steamid64 (set_flag r k v s) = steamid64 s ∧
  worker_done (set_flag r k v s) = worker_done s ∧
  jobs (set_flag r k v s) = jobs s ∧
  fs (set_flag r k v s) = fs s ∧
  events (set_flag r k v s) = events s ∧
  steam_username (set_flag r k v s) = steam_username s ∧
  steam_password (set_flag r k v s) = steam_password s.
Proof. unfold set_flag. by destruct (dicts s !! r). Qed.

Lemma set_flag_status_lines r k v s :
  status_lines (set_flag r k v s) = status_lines s.
Proof. apply set_flag_frame. Qed.
Lemma set_flag_steamid64 r k v s : steamid64 (set_flag r k v s) = steamid64 s.
Proof. apply set_flag_frame. Qed.
Lemma set_flag_worker_done r k v s :
  worker_done (set_flag r k v s) = worker_done s.
Proof. apply set_flag_frame. Qed.
Lemma set_flag_jobs r k v s : jobs (set_flag r k v s) = jobs s.
Proof. apply set_flag_frame. Qed.
Lemma set_flag_fs r k v s : fs (set_flag r k v s) = fs s.
Proof. apply set_flag_frame. Qed.
Lemma set_flag_events r k v s : events (set_flag r k v s) = events s.
Proof. apply set_flag_frame. Qed.

Lemma flag_true_set_other r k v s r' k' :
  k ≠ k' ∨ r ≠ r' → flag_true (set_flag r k v s) r' k' = flag_true s r' k'.
Proof. intros. unfold flag_true. by rewrite get_set_flag_other. Qed.

(** A flag that reads true lives in a dict of the store. *)
Lemma flag_true_lt s r k : flag_true s r k = true → (r < length (dicts s))%nat.
Proof.
  unfold flag_true, get_flag. destruct (dicts s !! r) eqn:Hd; [|done].
  intros _. by eapply lookup_lt_Some.
Qed.

End StateFacts.

Create Rewrite HintDb frame.
#[global] Hint Rewrite set_flag_status_lines set_flag_steamid64
  set_flag_worker_done set_flag_jobs set_flag_fs set_flag_events
  set_flag_dicts_length : frame.

(** ** The reading loop *)

Section ScanFacts.

Lemma lastn_length {A} n (l : list A) : (length (lastn n l) ≤ n)%nat.
Proof. unfold lastn. rewrite length_drop. lia. Qed.

Lemma lastn_all {A} n (l : list A) : (length l ≤ n)%nat → lastn n l = l.
Proof. intros H. unfold lastn. by replace (length l - n)%nat with 0%nat by lia. Qed.

(** The window is a suffix: the most recent entries, in their order. *)
Lemma lastn_suffix {A} n (l : list A) : lastn n l `suffix_of` l.
Proof. apply suffix_drop. Qed.

Lemma push_line_window b l :
  (length b ≤ tail_limit)%nat →
  (length (push_line b l) ≤ tail_limit)%nat ∧
  ∀ y, lastn tail_limit (push_line b l ++ y) = lastn tail_limit (b ++ l :: y).
Proof.
  intros Hb. unfold push_line.
  destruct (tail_limit <? length (b ++ [l]))%nat eqn:Hlt.
  - apply Nat.ltb_lt in Hlt. rewrite length_app in Hlt. simpl in Hlt.
    destruct b as [|b0 b]; [unfold tail_limit in *; simpl in *; lia|].
    simpl in Hb, Hlt. simpl drop. rewrite drop_0. split.
    + rewrite length_app. simpl. lia.
    + intros y. unfold lastn. rewrite <- app_assoc. simpl app.
      rewrite !length_cons, !length_app, !length_cons.
      replace (S (length b + S (length y)) - tail_limit)%nat
        with (S (length b + S (length y) - tail_limit))%nat by lia.
      done.
  - apply Nat.ltb_ge in Hlt. split; [done|].
    intros y. by rewrite <- app_assoc.
Qed.

(** The loop keeps the last [tail_limit] entries of what it was given
    and what it appended. *)
Lemma push_lines_window lines b :
  (length b ≤ tail_limit)%nat →
  fold_left push_line lines b = lastn tail_limit (b ++ lines).
Proof.
  revert b. induction lines as [|l lines IH]; intros b Hb; simpl.
  - rewrite app_nil_r. by rewrite lastn_all.
  - destruct (push_line_window b l Hb) as [Hlen Hwin].
    rewrite IH by done. apply Hwin.
Qed.

Lemma scan_buf out sc :
  buf (fold_left scan_line out sc)
  = fold_left push_line (PyStr.rstrip <$> out) (buf sc).
Proof. revert sc. induction out as [|l out IH]; intros sc; simpl; [done|]. by rewrite IH. Qed.

Lemma build_buf out b :
  fold_left build_line out b = fold_left push_line (PyStr.rstrip <$> out) b.
Proof. revert b. induction out as [|l out IH]; intros b; simpl; [done|]. by rewrite IH. Qed.

Lemma marker_rstrip raw : has_marker (PyStr.rstrip raw) = has_marker raw.
Proof.
  unfold has_marker.
  rewrite (PyStrFacts.contains_rstrip marker1 "K") by done.
  by rewrite (PyStrFacts.contains_rstrip marker2 "K").
Qed.

(** The success flag of the loop: set once a line shows a marker. *)
Lemma scan_login_ok out sc :
  login_ok (fold_left scan_line out sc) = login_ok sc || existsb has_marker out.
Proof.
  revert sc. induction out as [|l out IH]; intros sc; simpl.
  - by rewrite orb_false_r.
  - rewrite IH. simpl. fold (has_marker (PyStr.rstrip l)).
    rewrite marker_rstrip. destruct (has_marker l), (login_ok sc); done.
Qed.

(** The candidate of the loop: the match of the last line that has one. *)
Lemma scan_candidate out sc :
  steamid_candidate (fold_left scan_line out sc)
  = match last (omap Re.search out) with
    | Some g => Some g
    | None => steamid_candidate sc
    end.
Proof.
  revert sc. induction out as [|l out IH] using rev_ind; intros sc; [done|].
  rewrite fold_left_app, omap_app. cbn [fold_left scan_line steamid_candidate].
  rewrite ReFacts.search_rstrip. cbn [omap list_omap].
  destruct (Re.search l) as [g|] eqn:Hl.
  - by rewrite last_snoc.
  - rewrite app_nil_r. apply IH.
Qed.

End ScanFacts.

(** ** The identifier store *)

Section StoreFacts.
Context (os : platform) (dir : Path).

Lemma write_steamid64_frame x s :
  let s' := write_steamid64_to_file os dir x s in
  dicts s' = dicts s ∧ status_lines s' = status_lines s ∧
  steamid64 s' = steamid64 s ∧ worker_done s' = worker_done s ∧
  jobs s' = jobs s.
Proof.
  unfold write_steamid64_to_file. by destruct (Fs.write_text _ _ _ _).
Qed.

Lemma write_steamid64_dicts x s :
  dicts (write_steamid64_to_file os dir x s) = dicts s.
Proof. apply write_steamid64_frame. Qed.

Lemma write_steamid64_status_lines x s :
  status_lines (write_steamid64_to_file os dir x s) = status_lines s.
Proof. apply write_steamid64_frame. Qed.

Lemma read_steamid64_frame s :
  let s' := (read_steamid64_from_file dir s).1 in
  dicts s' = dicts s ∧ status_lines s' = status_lines s ∧
  steamid64 s' = steamid64 s ∧ worker_done s' = worker_done s ∧
  jobs s' = jobs s ∧ fs s' = fs s.
Proof.
  unfold read_steamid64_from_file.
  destruct (Fs.exists_ _ _); [|done]. by destruct (Fs.read_text _ _).
Qed.

End StoreFacts.

(** ** The login worker *)

Section LoginWorkerFacts.
Context (os : platform) (dir : Path).

Lemma login_run_ok u p d beh s :
  (d < length (dicts s))%nat →
  get_flag (SteamCmdWorker_run os dir u p d beh s) d "ok"
  = Some (login_outcome dir s beh).
Proof.
  intros Hd. unfold SteamCmdWorker_run, login_outcome.
  destruct (Fs.exists_ (fs s) (bundled_steamcmd_path dir)); simpl.
  2: { by rewrite get_set_flag. }
  destruct beh as [e|out rc].
  { by rewrite get_set_flag. }
  set (sc := fold_left scan_line out _).
  set (s2 := set_flag d "ok" _ _).
  assert (get_flag s2 d "ok" = Some (existsb has_marker out && (rc =? 0)%Z)) as H2.
  { subst s2. rewrite get_set_flag by done. subst sc.
    by rewrite scan_login_ok. }
  destruct (steamid_candidate sc) as [c|]; [|done].
  destruct (nonempty c); [|done].
  unfold get_flag in *. simpl. by rewrite write_steamid64_dicts.
Qed.

End LoginWorkerFacts.



(** ** Jobs: the operators, the thread bodies, the pollers *)

Section JobFacts.
Context (os : platform) (dir : Path).

Lemma lookup_snoc {A} (l : list A) x : (l ++ [x]) !! length l = Some x.
Proof. by apply list_lookup_middle. Qed.

Lemma alter_snoc {A} (f : A → A) (l : list A) x :
  alter f (length l) (l ++ [x]) = l ++ [f x].
Proof.
  replace (length l) with (length l + 0)%nat by lia. by rewrite alter_app_r.
Qed.

Lemma insert_snoc {A} (l : list A) x y : <[length l := y]> (l ++ [x]) = l ++ [y].
Proof.
  replace (length l) with (length l + 0)%nat by lia. by rewrite insert_app_r.
Qed.

(** The state a click on Login leaves. *)
Lemma login_click s :
  step os dir ClickLogin s
  = mkState (steam_username s) (steam_password s) (steamid64 s) []
      (dicts s ++ [fresh_flags]) (length (dicts s))
      (jobs s ++ [mkJob (login_worker os dir s) true true]) (fs s)
      (events s ++ [ThreadStart (length (jobs s));
                    TimerRegister (length (jobs s))]).
Proof.
  unfold step, login_execute, register_timer, login_spawn, start_worker,
    reset_status, log, with_jobs, with_status_lines, with_dicts,
    with_worker_done. cbn -[path_str lit alter].
  rewrite length_app. cbn [length].
  replace (length (jobs s) + 1 - 1)%nat with (length (jobs s)) by lia.
  rewrite alter_snoc. cbn. by rewrite <- app_assoc.
Qed.

Lemma get_flag_fresh u p i st (ds : list (gmap string bool)) n j f e k :
  get_flag (mkState u p i st (ds ++ [fresh_flags]) n j f e) (length ds) k
  = fresh_flags !! k.
Proof. unfold get_flag. cbn [dicts]. by rewrite lookup_snoc. Qed.

(** A thread body in a store without the executable. *)
Lemma run_missing w beh s :
  Fs.exists_ (fs s) (bundled_steamcmd_path dir) = false →
  run os dir w beh s
  = set_flag (done_flag_of w) "ok" false
      (append_line (lit "steamcmd not found: "
                    ++ path_str os (bundled_steamcmd_path dir)) s).
Proof.
  intros Hex. destruct w; simpl;
    unfold SteamCmdWorker_run, SteamCmdBuildWorker_run; by rewrite Hex.
Qed.

(** The three ways through [_check_done]. *)
Lemma check_done_waiting t s :
  flag_true s (worker_done s) "running" && negb (j_alive t) = false →
  _check_done dir t s = (s, Again).
Proof. intros H. unfold _check_done. by rewrite H. Qed.

Lemma check_done_failed t s :
  flag_true s (worker_done s) "running" = true → j_alive t = false →
  flag_true s (worker_done s) "ok" = false →
  _check_done dir t s
  = (log TagRedraw
       (append_line login_failed (set_flag (worker_done s) "running" false s)),
     Stop).
Proof.
  intros Hr Ha Hok. unfold _check_done. rewrite Hr, Ha. cbn [negb andb].
  rewrite set_flag_worker_done, flag_true_set_other by (by left).
  by rewrite Hok.
Qed.

Lemma check_done_succeeded t s :
  flag_true s (worker_done s) "running" = true → j_alive t = false →
  flag_true s (worker_done s) "ok" = true →
  _check_done dir t s
  = (log TagRedraw
       (let s := set_flag (worker_done s) "running" false s in
        if negb (nonempty (steamid64 s)) then
          let '(s, existing) := read_steamid64_from_file dir s in
          if nonempty existing then with_steamid64 existing s else s
        else s),
     Stop).
Proof.
  intros Hr Ha Hok. unfold _check_done. rewrite Hr, Ha. cbn [negb andb].
  rewrite set_flag_worker_done, flag_true_set_other by (by left).
  by rewrite Hok.
Qed.

End JobFacts.

(** C2 (as amended). When the executable is missing, a click on Login
    still starts the worker thread and logs nothing itself; the thread
    appends the failure message, sets ok to false, launches no process and
    ends; the poller leaves the state alone while the thread lives, and
    once it has ended sets running to false and appends its own failure
    line. *)
Theorem C2_missing_executable (os : platform) (dir : Path)
    (beh : popen_result) (s : State) :
  Fs.exists_ (fs s) (bundled_steamcmd_path dir) = false →
  let j := length (jobs s) in
  let s1 := step os dir ClickLogin s in
  let s2 := step os dir (ThreadRuns j beh) s1 in
  let s3 := step os dir (TimerFires j) s2 in
  let missing :=
    lit "steamcmd not found: " ++ path_str os (bundled_steamcmd_path dir) in
  (events s1 = events s ++ [ThreadStart j; TimerRegister j] ∧
   j_alive <$> jobs s1 !! j = Some true ∧
   status_lines s1 = [] ∧
   get_flag s1 (worker_done s1) "ok" = Some false ∧
   get_flag s1 (worker_done s1) "running" = Some true) ∧
  step os dir (TimerFires j) s1 = s1 ∧
  (status_lines s2 = [missing] ∧
   events s2 = events s1 ∧
   j_alive <$> jobs s2 !! j = Some false ∧
   get_flag s2 (worker_done s2) "ok" = Some false ∧
   get_flag s2 (worker_done s2) "running" = Some true) ∧
  (status_lines s3 = [missing; lit "Login did not complete successfully."] ∧
   get_flag s3 (worker_done s3) "ok" = Some false ∧
   get_flag s3 (worker_done s3) "running" = Some false).
Proof.
  intros Hex j s1 s2 s3 missing.
  assert (Hs1 : s1 = _) by apply login_click.
  assert (Hj1 : jobs s1 !! j = Some (mkJob (login_worker os dir s) true true)).
  { rewrite Hs1. cbn [jobs]. apply lookup_snoc. }
  assert (Hrun1 : flag_true s1 (worker_done s1) "running" = true).
  { unfold flag_true. rewrite Hs1. cbn [worker_done]. by rewrite get_flag_fresh. }
  split.
  { rewrite Hj1, Hs1. cbn [events status_lines worker_done].
    rewrite !get_flag_fresh. done. }
  split.
  { unfold step. rewrite Hj1. cbn [j_timer poll j_worker login_worker].
    unfold _check_done. rewrite Hrun1. done. }
  assert (Hex1 : Fs.exists_ (fs s1) (bundled_steamcmd_path dir) = false).
  { by rewrite Hs1. }
  assert (Hs2 : s2 =
    mkState (steam_username s) (steam_password s) (steamid64 s) [missing]
      (dicts s ++ [<["ok"%string := false]> fresh_flags]) (length (dicts s))
      (jobs s ++ [mkJob (login_worker os dir s) false true]) (fs s)
      (events s1)).
  { unfold s2, step. rewrite Hj1. cbn [j_alive j_worker j_timer].
    rewrite run_missing by done. cbn [login_worker].
    rewrite Hs1. unfold set_flag, append_line, with_status_lines, with_dicts,
      with_jobs. cbn -[path_str lit alter insert fresh_flags].
    rewrite lookup_snoc. cbn -[path_str lit alter insert fresh_flags].
    rewrite insert_snoc. subst j. by rewrite alter_snoc. }
  assert (Hj2 : jobs s2 !! j = Some (mkJob (login_worker os dir s) false true)).
  { rewrite Hs2. cbn [jobs]. apply lookup_snoc. }
  split.
  { rewrite Hj2, Hs2. cbn [events status_lines worker_done].
    unfold get_flag. cbn [dicts]. rewrite lookup_snoc. done. }
  assert (Hrun2 : flag_true s2 (worker_done s2) "running" = true).
  { unfold flag_true, get_flag. rewrite Hs2. cbn [worker_done dicts].
    by rewrite lookup_snoc. }
  assert (Hok2 : flag_true s2 (worker_done s2) "ok" = false).
  { unfold flag_true, get_flag. rewrite Hs2. cbn [worker_done dicts].
    by rewrite lookup_snoc. }
  unfold s3, step. rewrite Hj2. cbn [j_timer poll j_worker login_worker].
  rewrite check_done_failed by done.
  cbn [with_jobs log append_line with_status_lines status_lines worker_done
       dicts].
  autorewrite with frame.
  rewrite Hs2 at 1. cbn [status_lines]. split; [done|].
  assert (Hlt : (worker_done s2 < length (dicts s2))%nat).
  { by eapply flag_true_lt. }
  rewrite !(get_flag_ext (with_jobs _ _)
              (set_flag (worker_done s2) "running" false s2)) by done.
  split.
  - rewrite get_set_flag_other by (by left).
    unfold get_flag. rewrite Hs2. cbn [worker_done dicts].
    by rewrite lookup_snoc.
  - by apply get_set_flag.
Qed.

(** C2, evaluated on a host without the executable. *)
Lemma C2_missing_executable_witness :
  status_lines
    (steps Windows demo_dir
       [ClickLogin; ThreadRuns 0 (Started [] 0); TimerFires 0] bare0)
  = [lit "steamcmd not found: C:\addons\wrsr_workshop_io\steamcmd\steamcmd.exe";
     lit "Login did not complete successfully."].
Proof.
  assert (Hex : Fs.exists_ (fs bare0) (bundled_steamcmd_path demo_dir) = false)
    by (by vm_compute).
  destruct (C2_missing_executable Windows demo_dir (Started [] 0) bare0 Hex)
    as (_ & _ & _ & H3 & _).
  exact H3.
Defined.

(** C2 as stated fails: the executable is missing, and yet the click has
    started thread 0, which is alive, while the log is still empty. *)
Lemma C2_counterexample :
  Fs.exists_ (fs bare0) (bundled_steamcmd_path demo_dir) = false ∧
  events (login_execute Posix demo_dir bare0).1
  = [ThreadStart 0; TimerRegister 0] ∧
  j_alive <$> jobs (login_execute Posix demo_dir bare0).1 !! 0%nat = Some true ∧
  status_lines (login_execute Posix demo_dir bare0).1 = [].
Proof. by vm_compute. Qed.

(** C3 (as amended). Within one output scan the last line that matches
    the identifier pattern determines the candidate, and within that line
    the leftmost match: a later matching line overwrites an earlier
    find. *)
Theorem C3_last_match_wins (out : list str) (b : list str) :
  steamid_candidate (fold_left scan_line out (mkScan b false None))
  = last (omap Re.search out).
Proof.
  rewrite scan_candidate. cbn [steamid_candidate].
  by destruct (last (omap Re.search out)).
Qed.

(** C3 as stated fails: of two matching lines the second one wins, in the
    scan and in what the worker stores. *)
Lemma C3_counterexample :
  steamid_candidate
    (fold_left scan_line [lit "76561198000000001"; lit "76561198000000002"]
               (mkScan [] false None))
  = Some (lit "76561198000000002") ∧
  steamid64
    (steps Posix demo_dir
       [ClickLogin;
        ThreadRuns 0 (Started [lit "76561198000000001"; lit "76561198000000002"] 0)]
       demo0)
  = lit "76561198000000002".
Proof. by vm_compute. Qed.

Section WindowFacts.
Context (os : platform) (dir : Path).

(** What a thread body leaves in the log when the process ran. *)
Lemma run_started_status_lines w out rc s :
  Fs.exists_ (fs s) (bundled_steamcmd_path dir) = true →
  status_lines (run os dir w (Started out rc) s)
  = fold_left push_line (PyStr.rstrip <$> out) (status_lines s).
Proof.
  intros Hex. destruct w as [u p a d|a d]; simpl;
    unfold SteamCmdWorker_run, SteamCmdBuildWorker_run; rewrite Hex; simpl.
  - set (sc := fold_left scan_line out _).
    assert (buf sc = fold_left push_line (PyStr.rstrip <$> out) (status_lines s))
      as Hbuf by (subst sc; by rewrite scan_buf).
    destruct (steamid_candidate sc) as [c|].
    + destruct (nonempty c); simpl;
        rewrite ?write_steamid64_status_lines, set_flag_status_lines; done.
    + by rewrite set_flag_status_lines.
  - rewrite set_flag_status_lines. simpl. apply build_buf.
Qed.

(** A poller appends at most its one failure line. *)
Lemma poll_status_lines t s :
  status_lines (poll dir t s).1 = status_lines s ∨
  status_lines (poll dir t s).1 = status_lines s ++ [login_failed].
Proof.
  unfold poll. destruct (j_worker t) as [u p a d|a d].
  - unfold _check_done.
    destruct (flag_true s (worker_done s) "running" && negb (j_alive t));
      [|by left].
    set (s1 := set_flag (worker_done s) "running" false s).
    assert (status_lines s1 = status_lines s) as H1
      by apply set_flag_status_lines.
    destruct (flag_true s1 (worker_done s1) "ok").
    + left. destruct (negb (nonempty (steamid64 s1))); [|done].
      pose proof (read_steamid64_frame dir s1) as (_ & Hst & _).
      destruct (read_steamid64_from_file dir s1) as [s2 existing].
      simpl in Hst. destruct (nonempty existing); simpl; congruence.
    + right. simpl. by rewrite H1.
  - left. unfold _check.
    destruct (flag_true s (worker_done s) "running" && negb (j_alive t));
      [|done].
    destruct (getattr _ _) as [v|e]; simpl.
    + destruct (truthy _ v); simpl; apply set_flag_status_lines.
    + apply set_flag_status_lines.
Qed.

End WindowFacts.




Section RoundTripFacts.
Context (os : platform) (dir : Path).

Lemma write_text_writable f p data :
  Fs.writable f p = true →
  Fs.write_text os f p data = Ok (<[p := Regular (TextIO.nl_out os data)]> f).
Proof.
  unfold Fs.writable, Fs.write_text.
  by destruct (f !! p) as [[]|].
Qed.

(** After a write that went through, the file holds the stripped text
    and one line separator. *)
Lemma write_steamid64_fs x s :
  Fs.writable (fs s) (steamid64_txt_path dir) = true →
  fs (write_steamid64_to_file os dir x s)
  = <[steamid64_txt_path dir :=
        Regular (TextIO.nl_out os (PyStr.strip x ++ [LF]))]> (fs s).
Proof.
  intros Hw. unfold write_steamid64_to_file.
  by rewrite write_text_writable.
Qed.

(** What [read_steamid64_from_file] returns for a plain file. *)
Lemma read_steamid64_regular s data :
  fs s !! steamid64_txt_path dir = Some (Regular data) →
  (read_steamid64_from_file dir s).2 = PyStr.strip (TextIO.nl_in data).
Proof.
  intros Hf. unfold read_steamid64_from_file, Fs.exists_, Fs.read_text.
  cbn [fs log]. rewrite Hf.
  rewrite bool_decide_eq_true_2 by eauto. done.
Qed.

End RoundTripFacts.

(** C5 (as amended). For any text x whose stripped form holds no carriage
    return, and a store file that can be written, writing x and reading
    back returns x stripped of surrounding whitespace. *)
Theorem C5_store_roundtrip (os : platform) (dir : Path) (x : str) (s : State) :
  Fs.writable (fs s) (steamid64_txt_path dir) = true →
  CR ∉ PyStr.strip x →
  (read_steamid64_from_file dir (write_steamid64_to_file os dir x s)).2
  = PyStr.strip x.
Proof.
  intros Hw Hcr.
  rewrite (read_steamid64_regular dir _
             (TextIO.nl_out os (PyStr.strip x ++ [LF]))).
  - rewrite TextIOFacts.nl_roundtrip.
    + apply PyStrFacts.strip_strip_spaces. by repeat constructor.
    + rewrite not_elem_of_app. split; [done|].
      intros H%list_elem_of_singleton. by vm_compute in H.
  - rewrite write_steamid64_fs by done. apply lookup_insert_eq.
Qed.

(** C5, evaluated: an identifier between blanks and a line end. *)
Lemma C5_store_roundtrip_witness :
  (read_steamid64_from_file demo_dir
     (write_steamid64_to_file Windows demo_dir
        (lit "  76561198012345678 " ++ [LF]) demo0)).2
  = lit "76561198012345678".
Proof.
  apply (C5_store_roundtrip Windows demo_dir
           (lit "  76561198012345678 " ++ [LF]) demo0).
  - by vm_compute.
  - vm_compute. intros H. not_in_closed_list H.
Defined.

(** C5 as stated fails: a carriage return inside the text comes back as a
    line feed. *)
Lemma C5_counterexample :
  (read_steamid64_from_file demo_dir
     (write_steamid64_to_file Posix demo_dir ["a"%char; CR; "b"%char] demo0)).2
  = ["a"%char; LF; "b"%char] ∧
  PyStr.strip ["a"%char; CR; "b"%char] = ["a"%char; CR; "b"%char] ∧
  (read_steamid64_from_file demo_dir
     (write_steamid64_to_file Posix demo_dir ["a"%char; CR; "b"%char] demo0)).2
  ≠ PyStr.strip ["a"%char; CR; "b"%char].
Proof. by vm_compute. Qed.

Section PersistFacts.
Context (os : platform) (dir : Path).

(** What the login worker does with a candidate it has scraped. *)
Lemma login_run_candidate u p d out rc s c :
  Fs.exists_ (fs s) (bundled_steamcmd_path dir) = true →
  last (omap Re.search out) = Some c →
  ∃ s2, fs s2 = fs s ∧
    SteamCmdWorker_run os dir u p d (Started out rc) s
    = with_steamid64 c (write_steamid64_to_file os dir c s2).
Proof.
  intros Hex Hc. unfold SteamCmdWorker_run. rewrite Hex. cbn [negb].
  set (sc := fold_left scan_line out _).
  assert (steamid_candidate sc = Some c) as ->.
  { subst sc. by rewrite scan_candidate, Hc. }
  assert (nonempty c = true) as ->.
  { apply last_Some_elem_of, list_elem_of_omap in Hc as (raw & _ & Hraw).
    by eapply ReFacts.search_nonempty. }
  eexists. split; [|reflexivity].
  by rewrite set_flag_fs.
Qed.

Lemma nl_out_line x :
  LF ∉ x → TextIO.nl_out os (x ++ [LF]) = x ++ linesep os.
Proof.
  induction x as [|c x IH]; intros Hx; simpl.
  - by rewrite app_nil_r.
  - apply not_elem_of_cons in Hx as [Hc Hx].
    destruct (Ascii.eqb c LF) eqn:E.
    + apply Ascii.eqb_eq in E. congruence.
    + simpl. by rewrite IH.
Qed.

End PersistFacts.




(** ** Detection *)

Section DetectFacts.
Context (os : platform) (dir : Path).

Lemma reads_app ev1 ev2 : reads (ev1 ++ ev2) = reads ev1 ++ reads ev2.
Proof. apply omap_app. Qed.

Lemma candidate_match_missing f p :
  Fs.exists_ f p = false → candidate_match f p = None.
Proof.
  unfold Fs.exists_, candidate_match, Fs.read_text.
  destruct (f !! p) as [n|]; [|done].
  rewrite bool_decide_eq_true_2 by eauto. done.
Qed.

(** The loop passes over candidates that offer nothing, reading those
    that exist and changing nothing but the record of effects. *)
Lemma detect_loop_skip pre rest s :
  Forall (λ q, candidate_match (fs s) q = None) pre →
  ∃ s0, detect_loop os (pre ++ rest) s = detect_loop os rest s0 ∧
    fs s0 = fs s ∧ steamid64 s0 = steamid64 s ∧
    reads (events s0)
    = reads (events s) ++ filter (λ q, Fs.exists_ (fs s) q = true) pre.
Proof.
  intros Hpre. revert s Hpre.
  induction pre as [|q pre IH]; intros s Hpre.
  - exists s. simpl. by rewrite app_nil_r.
  - apply Forall_cons in Hpre as [Hq Hpre]. simpl app. cbn [detect_loop].
    destruct (Fs.exists_ (fs s) q) eqn:Hex.
    + rewrite filter_cons_True by done. cbn [fs log].
      unfold candidate_match in Hq.
      destruct (Fs.read_text (fs s) q) as [txt|e].
      * rewrite <- ReFacts.findall_head in Hq.
        destruct (Re.findall txt); [|done].
        destruct (IH (log (ReadText q) s) Hpre) as (s0 & Hloop & Hfs & Hid & Hr).
        exists s0. split; [done|]. split; [done|]. split; [done|].
        rewrite Hr. cbn [events log fs]. rewrite reads_app. cbn.
        by rewrite <- app_assoc.
      * match goal with
        | |- context [detect_loop os (pre ++ rest) ?x] =>
            destruct (IH x Hpre) as (s0 & Hloop & Hfs & Hid & Hr)
        end.
        exists s0. split; [exact Hloop|]. split; [done|]. split; [done|].
        rewrite Hr. cbn [events log fs]. rewrite !reads_app. cbn.
        by rewrite app_nil_r, <- app_assoc.
    + rewrite filter_cons_False by (by rewrite Hex).
      apply (IH s Hpre).
Qed.

Lemma detect_loop_hit p rest s id :
  candidate_match (fs s) p = Some id →
  detect_loop os (p :: rest) s = (log (ReadText p) s, Some id) ∧
  Fs.exists_ (fs s) p = true.
Proof.
  intros Hp. cbn [detect_loop].
  destruct (Fs.exists_ (fs s) p) eqn:Hex.
  2: { by rewrite candidate_match_missing in Hp. }
  cbn [fs log]. unfold candidate_match in Hp.
  destruct (Fs.read_text (fs s) p) as [txt|e]; [|done].
  rewrite <- ReFacts.findall_head in Hp.
  destruct (Re.findall txt) as [|m0 ms]; [done|].
  simpl in Hp. by simplify_eq.
Qed.

(** The candidates are always three: no path prints as the empty
    text, so the filter of [_default_steam_paths] drops nothing. *)
Lemma path_str_nonempty p : path_str os p ≠ [] ∨ ∃ rest, p = EmptyString :: rest.
Proof.
  destruct p as [|a rest]; [by left|].
  destruct a as [|c a]; [right; eauto|]. left.
  simpl. revert c a. induction rest as [|x rest IH]; intros c a; simpl; [done|].
  apply IH.
Qed.

Lemma default_steam_paths_length env :
  length (_default_steam_paths os env) = 3%nat.
Proof.
  unfold _default_steam_paths.
  set (a := getenv env "PROGRAMFILES(X86)" _).
  set (b := getenv env "PROGRAMFILES" _).
  set (c := getenv env "STEAM_CONFIG" _).
  assert (∀ x, path_str os (joinpath (joinpath (joinpath (Path_of x)
            "Steam") "config") "loginusers.vdf") ≠ []) as H1.
  { intros x. destruct (path_str_nonempty (joinpath (joinpath (joinpath
             (Path_of x) "Steam") "config") "loginusers.vdf")) as [H|[rest H]];
      [done|].
    unfold Path_of, joinpath in H. case_decide; simpl in H; simplify_eq. }
  assert (path_str os (Path_of c) ≠ []) as H2.
  { destruct (path_str_nonempty (Path_of c)) as [H|[rest H]]; [done|].
    unfold Path_of in H. case_decide; simplify_eq. }
  rewrite !filter_cons_True by auto. done.
Qed.

Lemma write_steamid64_reads x s :
  reads (events (write_steamid64_to_file os dir x s)) = reads (events s).
Proof.
  unfold write_steamid64_to_file. destruct (Fs.write_text _ _ _ _); [done|].
  cbn [events log]. rewrite reads_app. cbn. by rewrite app_nil_r.
Qed.

(** The operator when the loop has found an identifier. *)
Lemma detect_execute_found env s s1 id :
  detect_loop os (_default_steam_paths os env) s = (s1, Some id) →
  nonempty id = true →
  let s' := (detect_execute os dir env s).1 in
  (detect_execute os dir env s).2 = FINISHED ∧
  steamid64 s' = id ∧
  reads (events s') = reads (events s1) ∧
  last (events s') = Some (Report "INFO" (lit "Detected SteamID64: " ++ id)).
Proof.
  intros Hloop Hid. unfold detect_execute. rewrite Hloop, Hid.
  cbn [fst snd]. split; [done|]. split.
  - cbn [log steamid64].
    by destruct (write_steamid64_frame os dir id (with_steamid64 id s1))
      as (_ & _ & -> & _).
  - cbn [log events]. rewrite reads_app, write_steamid64_reads, last_snoc.
    cbn. by rewrite app_nil_r.
Qed.

(** The operator when the loop has found nothing. *)
Lemma detect_execute_nothing env s s1 :
  detect_loop os (_default_steam_paths os env) s = (s1, None) →
  detect_execute os dir env s = (log (Report "WARNING" detect_warning) s1, CANCELLED).
Proof. intros Hloop. unfold detect_execute. by rewrite Hloop. Qed.

End DetectFacts.

(** C7. Detection goes through its three candidate paths in order and
    stops at the first whose file is there, can be read and holds an
    identifier match: it takes the leftmost match of that file, reads no
    candidate behind it and finishes with an INFO report. When no
    candidate offers a match it reports the warning that asks for manual
    entry and returns CANCELLED, leaving identifier and files as they
    were. *)
Theorem C7_detect_first_candidate (os : platform) (dir : Path)
    (env : gmap string string) (s : State) :
  let cands := _default_steam_paths os env in
  let s' := (detect_execute os dir env s).1 in
  let r := (detect_execute os dir env s).2 in
  length cands = 3%nat ∧
  match list_find (λ p, is_Some (candidate_match (fs s) p)) cands with
  | Some (k, p) =>
      candidate_match (fs s) p = Some (steamid64 s') ∧
      r = FINISHED ∧
      reads (events s')
      = reads (events s)
        ++ filter (λ q, Fs.exists_ (fs s) q = true) (take (S k) cands) ∧
      last (events s')
      = Some (Report "INFO" (lit "Detected SteamID64: " ++ steamid64 s'))
  | None =>
      r = CANCELLED ∧
      last (events s')
      = Some (Report "WARNING"
                (lit "Could not detect SteamID64 automatically. Please enter it manually.")) ∧
      reads (events s')
      = reads (events s) ++ filter (λ q, Fs.exists_ (fs s) q = true) cands ∧
      steamid64 s' = steamid64 s ∧
      fs s' = fs s
  end.
Proof.
  intros cands s' r. split; [apply default_steam_paths_length|].
  destruct (list_find _ cands) as [[k p]|] eqn:Hfind.
  - apply list_find_Some in Hfind as (Hk & [id Hid] & Hbefore).
    assert (Forall (λ q, candidate_match (fs s) q = None) (take k cands)) as Hpre.
    { apply Forall_forall. intros q Hq.
      apply list_elem_of_lookup in Hq as [j Hj].
      pose proof (lookup_lt_Some _ _ _ Hj) as Hlt. rewrite length_take in Hlt.
      rewrite lookup_take_lt in Hj by lia.
      specialize (Hbefore j q Hj ltac:(lia)).
      destruct (candidate_match (fs s) q); [|done].
      exfalso. apply Hbefore. eauto. }
    destruct (detect_loop_skip os (take k cands) (p :: drop (S k) cands) s Hpre)
      as (s0 & Hloop & Hfs & Hsid & Hreads).
    rewrite take_drop_middle in Hloop by done.
    rewrite <- Hfs in Hid.
    destruct (detect_loop_hit os p (drop (S k) cands) s0 id Hid) as [Hhit Hex].
    rewrite Hhit in Hloop. rewrite Hfs in Hid, Hex.
    assert (nonempty id = true) as Hne.
    { unfold candidate_match in Hid. destruct (Fs.read_text _ _); [|done].
      by eapply ReFacts.search_nonempty. }
    destruct (detect_execute_found os dir env s _ id Hloop Hne)
      as (Hr & Hsteam & Hrd & Hlast).
    fold s' in Hsteam, Hrd, Hlast. fold r in Hr.
    rewrite Hsteam. split; [done|]. split; [done|]. split; [|done].
    rewrite Hrd. cbn [events log]. rewrite reads_app, Hreads. cbn.
    rewrite (take_S_r _ _ p) by done. rewrite filter_app, filter_cons_True by done.
    by rewrite <- app_assoc.
  - apply list_find_None in Hfind.
    assert (Forall (λ q, candidate_match (fs s) q = None) cands) as Hall.
    { eapply Forall_impl; [exact Hfind|]. intros q Hq. simpl in Hq.
      destruct (candidate_match (fs s) q); [|done]. exfalso. eauto. }
    destruct (detect_loop_skip os cands [] s Hall)
      as (s0 & Hloop & Hfs & Hsid & Hreads).
    rewrite app_nil_r in Hloop. cbn [detect_loop] in Hloop.
    unfold s', r. rewrite (detect_execute_nothing os dir env s s0 Hloop).
    cbn [fst snd log events steamid64 fs].
    rewrite last_snoc, reads_app, Hreads. cbn. rewrite app_nil_r. done.
Qed.

(** Detection on that host: the two default locations are passed over,
    the leftmost identifier of the file is taken and stored. *)
Example detect_demo :
  let res := detect_execute Windows demo_dir detect_env
               (initial [] [] detect_fs) in
  res.2 = FINISHED ∧
  steamid64 res.1 = lit "76561198012345678" ∧
  reads (events res.1) = [["D:\steam\loginusers.vdf"%string]] ∧
  (read_steamid64_from_file demo_dir res.1).2 = lit "76561198012345678".
Proof. by vm_compute. Qed.

Example detect_nothing_demo :
  (detect_execute Windows demo_dir ∅ demo0).2 = CANCELLED.
Proof. by vm_compute. Qed.

(** ** The build poller *)

(** C8. The build worker defines the attributes cmd_args, out_buffer and
    done_flag and inherits those of a thread; new_item_id is none of them.
    So the build poller, once it finds its worker finished and the running
    flag set, clears the flag and raises AttributeError at the test of
    [worker.new_item_id]: neither the success report nor the failure
    report is ever made. Before that it only asks to be called again. *)
Theorem C8_build_poller_raises (dir : Path) (t : job) (s : State)
    (a : list str) (d : nat) :
  j_worker t = SteamCmdBuildWorker a d →
  instance_attrs (j_worker t) !! "new_item_id"%string = None ∧
  ("new_item_id"%string ∉ thread_attrs) ∧
  events (poll dir t s).1 = events s ∧
  (if flag_true s (worker_done s) "running" && negb (j_alive t)
   then poll dir t s
        = (set_flag (worker_done s) "running" false s,
           Raise (AttributeError
                    (lit "'SteamCmdBuildWorker' object has no attribute 'new_item_id'")))
   else poll dir t s = (s, Ok Again)).
Proof.
  intros Hw. rewrite Hw.
  assert (instance_attrs (SteamCmdBuildWorker a d) !! "new_item_id"%string = None)
    as Hnone by (by vm_compute).
  assert ("new_item_id"%string ∉ thread_attrs) as Hthread.
  { unfold thread_attrs. intros H. not_in_closed_list H. }
  split; [done|]. split; [done|].
  unfold poll. rewrite Hw. unfold _check.
  assert (getattr (j_worker t) "new_item_id"
          = Raise (AttributeError
              (lit "'SteamCmdBuildWorker' object has no attribute 'new_item_id'")))
    as ->.
  { rewrite Hw. unfold getattr. rewrite Hnone.
    by rewrite bool_decide_eq_false_2. }
  destruct (flag_true s (worker_done s) "running" && negb (j_alive t)).
  - split; [|done]. apply set_flag_events.
  - done.
Qed.

(** C8, evaluated: a build job whose process ran and exited with 0. *)
Lemma C8_build_poller_raises_witness :
  let s := steps Windows demo_dir
             [ClickCreateNewItem; ThreadRuns 0 (Started [] 0)] demo0 in
  ∃ t, jobs s !! 0%nat = Some t ∧
    (poll demo_dir t s).2
    = Raise (AttributeError
               (lit "'SteamCmdBuildWorker' object has no attribute 'new_item_id'")).
Proof.
  intros s.
  destruct (jobs s !! 0%nat) as [t|] eqn:Ht; [|by vm_compute in Ht].
  exists t. split; [done|].
  assert (Hw : j_worker t = SteamCmdBuildWorker
     [lit "C:\addons\wrsr_workshop_io\steamcmd\steamcmd.exe"; lit "+login";
      lit "user"; lit "pw"; lit "+workshop_build_item";
      lit "C:\addons\wrsr_workshop_io\workshop.vdf"; lit "+quit"] 1).
  { vm_compute in Ht. by simplify_eq. }
  destruct (C8_build_poller_raises demo_dir t s _ _ Hw) as (_ & _ & _ & Hp).
  assert (flag_true s (worker_done s) "running" && negb (j_alive t) = true) as Hc.
  { vm_compute in Ht. simplify_eq. by vm_compute. }
  rewrite Hc in Hp. by rewrite Hp.
Defined.

(** ** The login poller *)

Section PollerFacts.
Context (dir : Path).

Lemma read_steamid64_ext s s' :
  fs s = fs s' →
  (read_steamid64_from_file dir s).2 = (read_steamid64_from_file dir s').2.
Proof.
  intros Hfs. unfold read_steamid64_from_file. cbn [fs log]. rewrite Hfs.
  destruct (Fs.exists_ _ _); [|done]. by destruct (Fs.read_text _ _).
Qed.

Lemma nonempty_false x : nonempty x = false → x = [].
Proof. unfold nonempty. by destruct x. Qed.

End PollerFacts.

(** C10. When the login poller handles a successful job (running flag
    set, worker finished, ok set), a non-empty identifier field of the
    preferences stays as it is, and an empty one takes the value read from
    the identifier file; the poller then stops. *)
Theorem C10_poller_keeps_identifier (dir : Path) (t : job) (s : State) :
  flag_true s (worker_done s) "running" = true →
  j_alive t = false →
  flag_true s (worker_done s) "ok" = true →
  steamid64 (_check_done dir t s).1
  = (if nonempty (steamid64 s) then steamid64 s
     else (read_steamid64_from_file dir s).2) ∧
  (_check_done dir t s).2 = Stop.
Proof.
  intros Hr Ha Hok. rewrite check_done_succeeded by done.
  cbn [fst snd log steamid64]. split; [|done].
  rewrite set_flag_steamid64.
  destruct (nonempty (steamid64 s)) eqn:Hne; cbn [negb].
  - apply set_flag_steamid64.
  - set (s1 := set_flag (worker_done s) "running" false s).
    rewrite <- (read_steamid64_ext dir s1 s) by apply set_flag_fs.
    pose proof (read_steamid64_frame dir s1) as (_ & _ & Hid & _).
    destruct (read_steamid64_from_file dir s1) as [s2 existing].
    cbn [fst snd] in *.
    destruct (nonempty existing) eqn:Hex; [done|].
    rewrite Hid. unfold s1. rewrite set_flag_steamid64.
    apply nonempty_false in Hne, Hex. congruence.
Qed.

(** C10, evaluated on [kept_state]. *)
Lemma C10_poller_keeps_identifier_witness :
  steamid64 (_check_done demo_dir (mkJob (SteamCmdWorker [] [] [] 0) false true)
                         kept_state).1
  = lit "76561198012345678".
Proof.
  destruct (C10_poller_keeps_identifier demo_dir
              (mkJob (SteamCmdWorker [] [] [] 0) false true) kept_state)
    as [H _]; [by vm_compute| done | by vm_compute |].
  rewrite H. by vm_compute.
Defined.

(** ** Starting a job *)

Section StartFacts.
Context (os : platform) (dir : Path).

Lemma reset_status_eq s :
  reset_status s
  = mkState (steam_username s) (steam_password s) (steamid64 s) []
      (dicts s ++ [fresh_flags]) (length (dicts s)) (jobs s) (fs s) (events s).
Proof. done. Qed.

(** Starting the thread and registering the poller add the job and two
    events, and nothing else. *)
Lemma spawn_eq w s :
  register_timer (start_worker w s)
  = mkState (steam_username s) (steam_password s) (steamid64 s)
      (status_lines s) (dicts s) (worker_done s)
      (jobs s ++ [mkJob w true true]) (fs s)
      (events s ++ [ThreadStart (length (jobs s));
                    TimerRegister (length (jobs s))]).
Proof.
  unfold register_timer, start_worker, log, with_jobs. cbn -[alter].
  rewrite length_app. cbn [length].
  replace (length (jobs s) + 1 - 1)%nat with (length (jobs s)) by lia.
  rewrite alter_snoc. cbn. by rewrite <- app_assoc.
Qed.

Lemma login_click_order s :
  step os dir ClickLogin s
  = register_timer (start_worker (login_worker os dir s) (reset_status s)).
Proof. done. Qed.

Lemma build_click_order s :
  step os dir ClickCreateNewItem s
  = match Fs.write_text os (fs s) (joinpath dir "workshop.vdf") vdf_text with
    | Ok f => register_timer
                (start_worker (build_worker os dir s) (with_fs f (reset_status s)))
    | Raise _ => reset_status s
    end.
Proof.
  unfold step, build_execute. cbn [fs reset_status with_worker_done with_dicts
    with_status_lines].
  by destruct (Fs.write_text _ _ _ _).
Qed.

(** A quiet job takes no step. *)
Lemma quiet_no_step j t beh s :
  jobs s !! j = Some t → quiet t →
  step os dir (ThreadRuns j beh) s = s ∧ step os dir (TimerFires j) s = s.
Proof. intros Hj [Ha Ht]. unfold step. by rewrite Hj, Ha, Ht. Qed.

End StartFacts.





(** ** Reachable states *)

Section Reachable.
Context (os : platform) (dir : Path).

Lemma same_refs_refl s : same_refs s s.
Proof. done. Qed.

Lemma same_refs_wf s s' : same_refs s s' → wf s → wf s'.
Proof.
  intros (Hd & Hw & Hj) [H1 H2]. split; [by rewrite Hd, Hw|].
  rewrite Hd.
  assert (Forall (λ w, (done_flag_of w < length (dicts s))%nat)
                 (j_worker <$> jobs s')) as H.
  { rewrite Hj. apply Forall_fmap. exact H2. }
  apply Forall_fmap in H. exact H.
Qed.

Lemma set_flag_same_refs r k v s : same_refs s (set_flag r k v s).
Proof.
  split; [apply set_flag_dicts_length|].
  split; [apply set_flag_worker_done|]. by rewrite set_flag_jobs.
Qed.

Lemma same_refs_trans s1 s2 s3 :
  same_refs s1 s2 → same_refs s2 s3 → same_refs s1 s3.
Proof. intros (?&?&?) (?&?&?). split; [|split]; congruence. Qed.

Lemma write_steamid64_same_refs x s :
  same_refs s (write_steamid64_to_file os dir x s).
Proof.
  destruct (write_steamid64_frame os dir x s) as (Hd & _ & _ & Hw & Hj).
  split; [by rewrite Hd|]. split; [done|]. by rewrite Hj.
Qed.

Lemma read_steamid64_same_refs s :
  same_refs s (read_steamid64_from_file dir s).1.
Proof.
  destruct (read_steamid64_frame dir s) as (Hd & _ & _ & Hw & Hj & _).
  split; [by rewrite Hd|]. split; [done|]. by rewrite Hj.
Qed.

Lemma same_refs_set_flag s s1 r k v :
  same_refs s s1 → same_refs s (set_flag r k v s1).
Proof. intros H. eapply same_refs_trans; [exact H|apply set_flag_same_refs]. Qed.

Lemma run_same_refs w beh s : same_refs s (run os dir w beh s).
Proof.
  destruct w as [u p a d|a d]; simpl;
    unfold SteamCmdWorker_run, SteamCmdBuildWorker_run;
    (destruct (Fs.exists_ _ _); simpl; [|by apply same_refs_set_flag]);
    (destruct beh as [e|out rc]; [by apply same_refs_set_flag|]).
  - set (s1 := set_flag d "ok" _ _).
    assert (same_refs s s1) as H1 by (by apply same_refs_set_flag).
    destruct (steamid_candidate _) as [c|]; [|done].
    destruct (nonempty c); [|done].
    eapply same_refs_trans; [exact H1|].
    eapply same_refs_trans; [apply (write_steamid64_same_refs c)|]. done.
  - by apply same_refs_set_flag.
Qed.

Lemma poll_same_refs t s : same_refs s (poll dir t s).1.
Proof.
  unfold poll. destruct (j_worker t) as [u p a d|a d].
  - unfold _check_done.
    destruct (flag_true s (worker_done s) "running" && negb (j_alive t));
      [|done].
    set (s1 := set_flag (worker_done s) "running" false s).
    assert (same_refs s s1) as H1 by apply set_flag_same_refs.
    simpl. destruct (flag_true s1 (worker_done s1) "ok"); [|done].
    destruct (negb (nonempty (steamid64 s1))); [|done].
    pose proof (read_steamid64_same_refs s1) as H2.
    destruct (read_steamid64_from_file dir s1) as [s2 existing].
    simpl in H2. eapply same_refs_trans; [exact H1|].
    by destruct (nonempty existing).
  - unfold _check.
    destruct (flag_true s (worker_done s) "running" && negb (j_alive t));
      [|done].
    destruct (getattr _ _) as [v|e]; simpl; [|apply set_flag_same_refs].
    destruct (truthy _ v); apply set_flag_same_refs.
Qed.

Lemma detect_loop_same_refs cands s : same_refs s (detect_loop os cands s).1.
Proof.
  revert s. induction cands as [|vdf rest IH]; intros s; [done|].
  cbn [detect_loop]. destruct (Fs.exists_ _ _); [|apply IH].
  cbn [fs log]. destruct (Fs.read_text _ _) as [txt|e].
  - destruct (Re.findall txt); [|done].
    apply (same_refs_trans _ (log (ReadText vdf) s)); [done|apply IH].
  - match goal with
    | |- same_refs _ (detect_loop os rest ?x).1 =>
        apply (same_refs_trans _ x); [done|apply IH]
    end.
Qed.

Lemma detect_execute_same_refs env s :
  same_refs s (detect_execute os dir env s).1.
Proof.
  unfold detect_execute.
  pose proof (detect_loop_same_refs (_default_steam_paths os env) s) as H.
  destruct (detect_loop _ _ _) as [s1 found]. simpl in H.
  destruct found as [f|]; [|done].
  destruct (nonempty f); [|done]. simpl.
  eapply same_refs_trans; [exact H|].
  apply (same_refs_trans _ (with_steamid64 f s1)); [done|].
  apply write_steamid64_same_refs.
Qed.

Lemma alter_job_same_refs (g : job → job) j s :
  (∀ t, j_worker (g t) = j_worker t) →
  same_refs s (with_jobs (alter g j (jobs s)) s).
Proof.
  intros Hg. split; [done|]. split; [done|]. cbn [jobs with_jobs].
  rewrite (list_fmap_alter j_worker g id).
  - by apply list_alter_id.
  - apply Forall_forall. intros t _. apply Hg.
Qed.

Lemma reset_status_wf s : wf s → wf (reset_status s).
Proof.
  intros [_ H2]. rewrite reset_status_eq. split; cbn [worker_done dicts jobs].
  - rewrite length_app. simpl. lia.
  - eapply Forall_impl; [exact H2|]. intros t Ht. simpl in Ht.
    rewrite length_app. simpl. lia.
Qed.

Lemma spawn_wf w s :
  wf s → done_flag_of w = worker_done s → wf (register_timer (start_worker w s)).
Proof.
  intros [H1 H2] Hw. rewrite spawn_eq. split; cbn [worker_done dicts jobs].
  - done.
  - apply Forall_app. split; [done|]. apply Forall_singleton. simpl. lia.
Qed.

(** Every step keeps the references sound. *)
Lemma step_wf a s : wf s → wf (step os dir a s).
Proof.
  intros Hwf. destruct a as [| |env|j beh|j].
  - rewrite login_click_order. apply spawn_wf; [by apply reset_status_wf|done].
  - rewrite build_click_order. destruct (Fs.write_text _ _ _ _) as [f|e].
    + apply spawn_wf; [|done].
      eapply same_refs_wf; [|by apply reset_status_wf]. done.
    + by apply reset_status_wf.
  - eapply same_refs_wf; [apply detect_execute_same_refs|done].
  - unfold step. destruct (jobs s !! j) as [t|]; [|done].
    destruct (j_alive t); [|done].
    eapply same_refs_wf; [|exact Hwf].
    eapply same_refs_trans; [apply run_same_refs|].
    by apply alter_job_same_refs.
  - unfold step. destruct (jobs s !! j) as [t|]; [|done].
    destruct (j_timer t); [|done].
    pose proof (poll_same_refs t s) as Hp.
    destruct (poll dir t s) as [s1 r]. simpl in Hp.
    assert (wf s1) as H1 by (by eapply same_refs_wf).
    destruct r as [[]|e]; try done;
      (eapply same_refs_wf; [by apply alter_job_same_refs|done]).
Qed.

Lemma initial_wf u p f : wf (initial u p f).
Proof. split; [simpl; lia|constructor]. Qed.

Lemma steps_wf acts s : wf s → wf (steps os dir acts s).
Proof.
  revert s. induction acts as [|a acts IH]; intros s Hwf; [done|].
  apply IH. by apply step_wf.
Qed.

(** In every state the add-on can reach, the thread of a login job
    leaves in its own [done_flag] the outcome of its run. *)
Lemma reachable_login_flag acts u0 p0 f0 j t u p a d beh :
  let s := steps os dir acts (initial u0 p0 f0) in
  jobs s !! j = Some t →
  j_worker t = SteamCmdWorker u p a d →
  get_flag (run os dir (j_worker t) beh s) d "ok"
  = Some (login_outcome dir s beh).
Proof.
  intros s Hj Hw. rewrite Hw. simpl. apply login_run_ok.
  destruct (steps_wf acts (initial u0 p0 f0) (initial_wf u0 p0 f0)) as [_ H2].
  rewrite Forall_forall in H2.
  specialize (H2 t (list_elem_of_lookup_2 _ _ _ Hj)). by rewrite Hw in H2.
Qed.

(** The dict a new job gets is shared with no earlier worker. *)
Lemma fresh_dict_unshared s :
  wf s →
  Forall (λ t, done_flag_of (j_worker t) ≠ worker_done (reset_status s)) (jobs s).
Proof.
  intros [_ H2]. eapply Forall_impl; [exact H2|].
  intros t Ht. simpl in *. lia.
Qed.

End Reachable.


(** ** The pattern, declaratively *)

Module ReSpec.
Import Re.

Lemma prev_after_cons prev c a : prev_after prev (c :: a) = prev_after (Some c) a.
Proof.
  unfold prev_after. destruct a as [|c' a]; [done|].
  rewrite last_cons_cons. by destruct (last (c' :: a)) eqn:E; [|apply last_None in E].
Qed.

Lemma prev_after_app prev a b :
  prev_after prev (a ++ b) = prev_after (prev_after prev a) b.
Proof.
  revert prev. induction a as [|c a IH]; intros prev; [done|].
  simpl app. rewrite !prev_after_cons. apply IH.
Qed.

(** A run of [\d] atoms takes as many digits. *)
Lemma match_digits n rest prev s g :
  match_atoms prev (replicate n Digit ++ rest) s = Some g ↔
  ∃ d s' g', s = d ++ s' ∧ length d = n ∧
    Forall (λ c, is_digit c = true) d ∧
    match_atoms (prev_after prev d) rest s' = Some g' ∧ g = d ++ g'.
Proof.
  revert prev s g. induction n as [|n IH]; intros prev s g; simpl.
  - split.
    + intros H. exists [], s, g. done.
    + intros (d & s' & g' & -> & Hd & _ & H & ->).
      apply nil_length_inv in Hd as ->. done.
  - destruct s as [|x s].
    + split; [done|]. intros (d & s' & g' & Hs & Hd & _).
      destruct d; [done|]. discriminate.
    + destruct (is_digit x) eqn:Hx.
      * split.
        -- destruct (match_atoms (Some x) _ s) as [g0|] eqn:Hm; [|done].
           simpl. intros [= <-]. apply IH in Hm as (d & s' & g' & -> & Hd & Hall & Hm & ->).
           exists (x :: d), s', g'. split; [done|]. split; [by simpl; rewrite Hd|].
           split; [by constructor|]. by rewrite prev_after_cons.
        -- intros (d & s' & g' & Hs & Hd & Hall & Hm & ->).
           destruct d as [|x' d]; [done|]. simpl in Hs, Hd.
           injection Hs as <- ->. injection Hd as <-.
           rewrite prev_after_cons in Hm.
           assert (match_atoms (Some x) (replicate (length d) Digit ++ rest) (d ++ s')
                   = Some (d ++ g')) as ->; [|done].
           apply IH. exists d, s', g'. apply Forall_cons in Hall as [_ Hall]. done.
      * split; [done|]. intros (d & s' & g' & Hs & Hd & Hall & _).
        destruct d as [|x' d]; [done|]. simpl in Hs. injection Hs as <- _.
        apply Forall_cons in Hall as [Hx' _]. congruence.
Qed.

Lemma digits_word_last prev d :
  d ≠ [] → Forall (λ c, is_digit c = true) d →
  word_at (prev_after prev d) = true.
Proof.
  intros Hd Hall. unfold prev_after.
  destruct (last d) as [c|] eqn:Hl; [|by apply last_None in Hl].
  simpl. apply ReFacts.digit_is_word.
  rewrite Forall_forall in Hall. apply Hall. by eapply last_Some_elem_of.
Qed.

(** What it takes for the pattern to match at a position. *)
Lemma match_here prev s g :
  match_atoms prev pattern s = Some g ↔
  ∃ b, s = g ++ b ∧ identifier g ∧ word_at prev = false ∧ word_at (head b) = false.
Proof.
  unfold pattern. cbn [app match_atoms].
  destruct s as [|c1 s].
  { split.
    - by destruct (xorb _ _).
    - intros (b & Hs & (d & -> & _) & _). discriminate. }
  destruct s as [|c2 s].
  { split.
    - destruct (xorb _ _); [|done]. by destruct (Ascii.eqb c1 "7").
    - intros (b & Hs & (d & -> & _) & _). discriminate. }
  cbn [head]. split.
  - destruct (xorb _ _) eqn:Hb; [|done].
    destruct (Ascii.eqb c1 "7") eqn:H1; [|done]. apply Ascii.eqb_eq in H1 as ->.
    destruct (Ascii.eqb c2 "6") eqn:H2; [|done]. apply Ascii.eqb_eq in H2 as ->.
    destruct (match_atoms (Some "6"%char) _ s) as [g0|] eqn:Hm; [|done].
    cbn. intros [= <-].
    apply match_digits in Hm as (d & s' & g' & -> & Hd & Hall & Hm & ->).
    cbn [match_atoms] in Hm.
    rewrite digits_word_last in Hm by (done || by destruct d).
    destruct (word_at (head s')) eqn:Hh; [done|]. cbn in Hm. simplify_eq.
    exists s'. rewrite app_nil_r. split; [done|]. split; [by exists d|].
    split; [|done]. by destruct (word_at prev).
  - intros (b & Hs & (d & -> & Hd & Hall) & Hp & Hb). simpl in Hs. simplify_eq.
    rewrite Hp. change (word_at (Some "7"%char)) with true. cbn [xorb].
    rewrite !Ascii.eqb_refl.
    assert (match_atoms (Some "6"%char) (replicate 15 Digit ++ [WordBoundary])
                        (d ++ b) = Some d) as ->; [|done].
    apply match_digits. exists d, b, []. rewrite app_nil_r.
    split; [done|]. split; [done|]. split; [done|]. split; [|done].
    cbn [match_atoms]. rewrite digits_word_last by (done || by destruct d).
    by rewrite Hb.
Qed.

(** [search_from] returns the leftmost occurrence. *)
Lemma search_from_sound prev s g :
  search_from prev s = Some g →
  ∃ a b, s = a ++ g ++ b ∧ identifier g ∧
    word_at (prev_after prev a) = false ∧ word_at (head b) = false ∧
    ∀ a' g' b', s = a' ++ g' ++ b' → identifier g' →
      word_at (prev_after prev a') = false → word_at (head b') = false →
      (length a ≤ length a')%nat.
Proof.
  revert prev. induction s as [|c s IH]; intros prev; cbn [search_from].
  - by rewrite ReFacts.match_pattern_nil.
  - destruct (match_atoms prev pattern (c :: s)) as [g0|] eqn:Hm.
    + intros [= ->]. apply match_here in Hm as (b & Hs & Hg & Hp & Hb).
      exists [], b. split; [done|]. split; [done|]. split; [done|].
      split; [done|]. intros. simpl. lia.
    + intros Hsearch. apply IH in Hsearch as (a & b & -> & Hg & Hp & Hb & Hleft).
      exists (c :: a), b. split; [done|]. split; [done|].
      rewrite prev_after_cons. split; [done|]. split; [done|].
      intros a' g' b' Hs Hg' Hp' Hb'. destruct a' as [|c' a'].
      * exfalso. assert (match_atoms prev pattern (c :: a ++ g ++ b) = Some g')
          as Hyes; [|congruence].
        apply match_here. exists b'. done.
      * simpl in Hs. simplify_eq. rewrite prev_after_cons in Hp'.
        simpl. specialize (Hleft a' g' b' ltac:(done) Hg' Hp' Hb'). lia.
Qed.

(** [search_from] misses no occurrence. *)
Lemma search_from_complete prev a g b :
  identifier g → word_at (prev_after prev a) = false → word_at (head b) = false →
  is_Some (search_from prev (a ++ g ++ b)).
Proof.
  intros Hg Hp Hb. revert prev Hp. induction a as [|c a IH]; intros prev Hp.
  - simpl app. destruct g as [|g0 g]; [by destruct Hg as (d & ? & _)|].
    simpl app. cbn [search_from].
    assert (match_atoms prev pattern (g0 :: g ++ b) = Some (g0 :: g)) as ->; [|done].
    apply match_here. exists b. done.
  - simpl app. cbn [search_from].
    destruct (match_atoms prev pattern _); [done|].
    apply IH. by rewrite prev_after_cons in Hp.
Qed.

(** Every element of [findall] is a text the pattern matches. *)
Lemma findall_from_identifiers skip prev s :
  Forall identifier (findall_from skip prev s).
Proof.
  revert skip prev. induction s as [|c s IH]; intros skip prev; [constructor|].
  cbn [findall_from]. destruct skip as [|k]; [|apply IH].
  destruct (match_atoms prev pattern (c :: s)) as [g|] eqn:Hm; [|apply IH].
  constructor; [|apply IH]. by apply match_here in Hm as (b & _ & Hg & _).
Qed.

Lemma identifier_digits g : identifier g → Forall (λ c, is_digit c = true) g.
Proof. intros (d & -> & _ & Hd). by repeat constructor. Qed.

Lemma identifier_length g : identifier g → length g = 17%nat.
Proof. intros (d & -> & Hd & _). simpl. by rewrite Hd. Qed.

Lemma digit_not_space c : is_digit c = true → PyStr.isspace c = false.
Proof.
  intros Hd. destruct (PyStr.isspace c) eqn:Hs; [|done].
  apply ReFacts.space_not_word in Hs. apply ReFacts.digit_is_word in Hd. congruence.
Qed.

(** An identifier has nothing to strip and no line end in it. *)
Lemma identifier_strip g : identifier g → PyStr.strip g = g.
Proof.
  intros Hg. apply identifier_digits in Hg. rewrite Forall_forall in Hg.
  unfold PyStr.strip. rewrite PyStrFacts.rstrip_fixed.
  - apply PyStrFacts.lstrip_fixed. intros c Hc. apply digit_not_space, Hg.
    destruct g; simplify_eq/=. by left.
  - intros c Hc. apply digit_not_space, Hg. by eapply last_Some_elem_of.
Qed.

Lemma identifier_no_space g c : identifier g → c ∈ g → PyStr.isspace c = false.
Proof.
  intros Hg Hc. apply identifier_digits in Hg. rewrite Forall_forall in Hg.
  by apply digit_not_space, Hg.
Qed.

Lemma search_identifier s g : search s = Some g → identifier g.
Proof. intros H. by apply search_from_sound in H as (a & b & _ & Hg & _). Qed.

End ReSpec.


(** ** Further properties of the code *)

(** X1. What [re.search] with the identifier pattern returns is an
    identifier (7, 6 and fifteen digits) that stands in the text as a whole
    word, and it is the leftmost such occurrence. *)
Theorem X1_search_leftmost_identifier (s g : str) :
  Re.search s = Some g →
  ∃ a b, s = a ++ g ++ b ∧ occurrence a g b ∧
    ∀ a' g' b', s = a' ++ g' ++ b' → occurrence a' g' b' →
      (length a ≤ length a')%nat.
Proof.
  intros H. apply ReSpec.search_from_sound in H
    as (a & b & Hs & Hg & Hp & Hb & Hleft).
  assert (∀ x, prev_after None x = last x) as Hlast.
  { intros x. unfold prev_after. by destruct (last x). }
  rewrite Hlast in Hp.
  exists a, b. split; [done|]. split; [done|].
  intros a' g' b' Hs' (Hg' & Hp' & Hb'). apply (Hleft a' g' b'); try done.
  by rewrite Hlast.
Qed.

(** X1, evaluated on a line with two identifiers. *)
Lemma X1_search_leftmost_identifier_witness :
  ∃ a b, lit "ids 76561198012345678 76561198000000000" = a ++ accepted_id ++ b ∧
    occurrence a accepted_id b.
Proof.
  destruct (X1_search_leftmost_identifier
              (lit "ids 76561198012345678 76561198000000000") accepted_id)
    as (a & b & Hs & Hocc & _); [by vm_compute|].
  exists a, b. done.
Defined.

(** X2. [re.search] with the identifier pattern finds nothing exactly
    when the text holds no identifier standing as a whole word. *)
Theorem X2_search_none_iff_no_identifier (s : str) :
  Re.search s = None ↔ ¬ ∃ a g b, s = a ++ g ++ b ∧ occurrence a g b.
Proof.
  assert (∀ x, prev_after None x = last x) as Hlast.
  { intros x. unfold prev_after. by destruct (last x). }
  split.
  - intros Hnone (a & g & b & -> & Hg & Hp & Hb).
    destruct (ReSpec.search_from_complete None a g b Hg) as [g' Hg'];
      [by rewrite Hlast|done|].
    unfold Re.search in Hnone. congruence.
  - intros Hno. destruct (Re.search s) as [g|] eqn:Hs; [|done].
    exfalso. apply Hno.
    apply ReSpec.search_from_sound in Hs as (a & b & Hs & Hg & Hp & Hb & _).
    rewrite Hlast in Hp. exists a, g, b. done.
Qed.

(** X3. On one text the two scraping call sites agree: the first element
    of [re.findall] is what [re.search] returns, [findall] is empty exactly
    when [search] finds nothing, and every element of [findall] is an
    identifier. *)
Theorem X3_findall_agrees_with_search (s : str) :
  head (Re.findall s) = Re.search s ∧
  (Re.findall s = [] ↔ Re.search s = None) ∧
  Forall identifier (Re.findall s).
Proof.
  split; [apply ReFacts.findall_head|]. split.
  - rewrite <- ReFacts.findall_head. by destruct (Re.findall s).
  - apply ReSpec.findall_from_identifiers.
Qed.

Section StoreExtras.
Context (os : platform) (dir : Path).

(** Writing and reading back, for text without a carriage return. *)
Lemma store_roundtrip x s :
  Fs.writable (fs s) (steamid64_txt_path dir) = true →
  CR ∉ PyStr.strip x →
  (read_steamid64_from_file dir (write_steamid64_to_file os dir x s)).2
  = PyStr.strip x.
Proof.
  intros Hw Hcr.
  rewrite (read_steamid64_regular dir _
             (TextIO.nl_out os (PyStr.strip x ++ [LF]))).
  - rewrite TextIOFacts.nl_roundtrip.
    + apply PyStrFacts.strip_strip_spaces. by repeat constructor.
    + rewrite not_elem_of_app. split; [done|].
      intros H%list_elem_of_singleton. by vm_compute in H.
  - rewrite write_steamid64_fs by done. apply lookup_insert_eq.
Qed.

Lemma write_steamid64_writable x s :
  Fs.writable (fs s) (steamid64_txt_path dir) = true →
  Fs.writable (fs (write_steamid64_to_file os dir x s)) (steamid64_txt_path dir)
  = true.
Proof.
  intros Hw. rewrite write_steamid64_fs by done.
  unfold Fs.writable. by rewrite lookup_insert_eq.
Qed.

Lemma strip_idem x : PyStr.strip (PyStr.strip x) = PyStr.strip x.
Proof.
  rewrite <- (app_nil_r (PyStr.strip x)) at 1.
  by apply PyStrFacts.strip_strip_spaces.
Qed.

Lemma read_steamid64_value s :
  (read_steamid64_from_file dir s).2
  = match fs s !! steamid64_txt_path dir with
    | Some (Regular d) | Some (ReadOnly d) => PyStr.strip (TextIO.nl_in d)
    | Some Directory | None => []
    end.
Proof.
  unfold read_steamid64_from_file, Fs.exists_, Fs.read_text. cbn [fs log].
  destruct (fs s !! steamid64_txt_path dir) as [[d|d|]|] eqn:Hf.
  - rewrite bool_decide_eq_true_2 by eauto. done.
  - rewrite bool_decide_eq_true_2 by eauto. done.
  - rewrite bool_decide_eq_true_2 by eauto. done.
  - rewrite bool_decide_eq_false_2; [done|]. by intros [? ?].
Qed.

End StoreExtras.

(** X4. A write to the identifier store that fails raises nothing: the
    file system stays as it was, one diagnostic is printed, and a read
    returns what it returned before. *)
Theorem X4_write_failure_keeps_store (os : platform) (dir : Path) (x : str)
    (s : State) :
  Fs.writable (fs s) (steamid64_txt_path dir) = false →
  let s' := write_steamid64_to_file os dir x s in
  fs s' = fs s ∧
  (read_steamid64_from_file dir s').2 = (read_steamid64_from_file dir s).2 ∧
  ∃ e, events s'
       = events s ++ [Print (lit "[wrsr_workshop_io] Failed to write steamid64.txt: "
                             ++ exn_str e)].
Proof.
  intros Hw s'.
  assert (∃ e, Fs.write_text os (fs s) (steamid64_txt_path dir)
                 (PyStr.strip x ++ [LF]) = Raise e) as [e He].
  { unfold Fs.writable in Hw. unfold Fs.write_text.
    destruct (fs s !! steamid64_txt_path dir) as [[]|]; try done; eauto. }
  assert (s' = log (Print (lit "[wrsr_workshop_io] Failed to write steamid64.txt: "
                           ++ exn_str e)) s) as ->.
  { unfold s', write_steamid64_to_file. by rewrite He. }
  split; [done|]. split; [by apply read_steamid64_ext|]. by exists e.
Qed.

(** X4, evaluated on a read-only identifier file. *)
Lemma X4_write_failure_keeps_store_witness :
  (read_steamid64_from_file demo_dir
     (write_steamid64_to_file Windows demo_dir accepted_id locked0)).2
  = lit "76561198000000000".
Proof.
  destruct (X4_write_failure_keeps_store Windows demo_dir accepted_id locked0)
    as (_ & Hread & _); [by vm_compute|].
  rewrite Hread. by vm_compute.
Defined.

(** X5. What a read of the identifier store returns has no surrounding
    whitespace left to strip, and it is the empty text when the file is
    missing or cannot be opened as a file. *)
Theorem X5_read_store_clean (dir : Path) (s : State) :
  PyStr.strip (read_steamid64_from_file dir s).2
  = (read_steamid64_from_file dir s).2 ∧
  match fs s !! steamid64_txt_path dir with
  | Some (Regular d) | Some (ReadOnly d) =>
      (read_steamid64_from_file dir s).2 = PyStr.strip (TextIO.nl_in d)
  | Some Directory | None => (read_steamid64_from_file dir s).2 = []
  end.
Proof.
  rewrite read_steamid64_value.
  destruct (fs s !! steamid64_txt_path dir) as [[d|d|]|];
    (split; [|done]); try done; apply strip_idem.
Qed.

(** X6. The store holds one value, the last one written: after two writes
    a read returns the second text stripped, and the file holds that text
    and one line separator, nothing of the first. *)
Theorem X6_last_write_wins (os : platform) (dir : Path) (x y : str) (s : State) :
  Fs.writable (fs s) (steamid64_txt_path dir) = true →
  CR ∉ PyStr.strip y →
  let s' := write_steamid64_to_file os dir y (write_steamid64_to_file os dir x s) in
  (read_steamid64_from_file dir s').2 = PyStr.strip y ∧
  fs s' !! steamid64_txt_path dir
  = Some (Regular (TextIO.nl_out os (PyStr.strip y ++ [LF]))).
Proof.
  intros Hw Hcr s'. split.
  - apply store_roundtrip; [|done]. by apply write_steamid64_writable.
  - unfold s'. rewrite write_steamid64_fs by (by apply write_steamid64_writable).
    apply lookup_insert_eq.
Qed.

(** X6, evaluated: two identifiers written one after the other. *)
Lemma X6_last_write_wins_witness :
  (read_steamid64_from_file demo_dir
     (write_steamid64_to_file Windows demo_dir accepted_id
        (write_steamid64_to_file Windows demo_dir (lit "76561198000000000")
           demo0))).2
  = accepted_id.
Proof.
  apply (X6_last_write_wins Windows demo_dir (lit "76561198000000000")
           accepted_id demo0).
  - by vm_compute.
  - vm_compute. intros H. not_in_closed_list H.
Defined.

(** X7. What was written to the identifier store is what the next start
    of the add-on loads: [register] on fresh preferences sets the
    identifier field to the written text, stripped. *)
Theorem X7_register_loads_stored (os : platform) (dir : Path) (x u p : str)
    (s : State) :
  Fs.writable (fs s) (steamid64_txt_path dir) = true →
  CR ∉ PyStr.strip x →
  steamid64 (register dir (initial u p (fs (write_steamid64_to_file os dir x s))))
  = PyStr.strip x.
Proof.
  intros Hw Hcr. unfold register.
  pose proof (store_roundtrip os dir x s Hw Hcr) as Hrt.
  rewrite (read_steamid64_ext dir _
             (initial u p (fs (write_steamid64_to_file os dir x s)))) in Hrt
    by done.
  pose proof (read_steamid64_frame dir
                (initial u p (fs (write_steamid64_to_file os dir x s))))
    as (_ & _ & Hid & _).
  destruct (read_steamid64_from_file dir _) as [s1 existing].
  cbn [fst snd] in *. subst existing.
  destruct (nonempty (PyStr.strip x)) eqn:Hne; [done|].
  rewrite Hid. cbn. symmetry. by apply nonempty_false.
Qed.

(** X7, evaluated. *)
Lemma X7_register_loads_stored_witness :
  steamid64
    (register demo_dir
       (initial [] []
          (fs (write_steamid64_to_file Windows demo_dir
                 (lit " 76561198012345678") demo0))))
  = accepted_id.
Proof.
  apply (X7_register_loads_stored Windows demo_dir (lit " 76561198012345678")
           [] [] demo0).
  - by vm_compute.
  - vm_compute. intros H. not_in_closed_list H.
Defined.


Section WorkerExtras.
Context (os : platform) (dir : Path).

(** A thread body writes one flag only: the ok of its own [done_flag]. *)
Lemma run_get_flag_other w beh s r k :
  k ≠ "ok"%string ∨ r ≠ done_flag_of w →
  get_flag (run os dir w beh s) r k = get_flag s r k.
Proof.
  intros Hne.
  assert (∀ v s1, dicts s1 = dicts s →
            get_flag (set_flag (done_flag_of w) "ok" v s1) r k = get_flag s r k)
    as Hset.
  { intros v s1 Hs1. rewrite get_set_flag_other.
    - by apply get_flag_ext.
    - destruct Hne as [Hk|Hr]; [left|right]; congruence. }
  destruct w as [u p a d|a d]; simpl in *;
    unfold SteamCmdWorker_run, SteamCmdBuildWorker_run;
    (destruct (Fs.exists_ _ _); simpl; [|by apply Hset]);
    (destruct beh as [e|out rc]; [by apply Hset|]).
  - destruct (steamid_candidate _) as [c|]; [|by apply Hset].
    destruct (nonempty c); [|by apply Hset].
    match goal with
    | |- get_flag (with_steamid64 c (write_steamid64_to_file os dir c ?x)) r k = _ =>
        rewrite (get_flag_ext _ x) by apply write_steamid64_dicts
    end.
    by apply Hset.
  - by apply Hset.
Qed.

(** A thread body leaves the jobs and the binding of the flags alone. *)
Lemma run_jobs w beh s :
  jobs (run os dir w beh s) = jobs s ∧
  worker_done (run os dir w beh s) = worker_done s.
Proof.
  destruct w as [u p a d|a d]; simpl;
    unfold SteamCmdWorker_run, SteamCmdBuildWorker_run;
    (destruct (Fs.exists_ _ _); simpl;
       [|by rewrite set_flag_jobs, set_flag_worker_done]);
    (destruct beh as [e|out rc];
       [by rewrite set_flag_jobs, set_flag_worker_done|]).
  - destruct (steamid_candidate _) as [c|];
      [|by rewrite set_flag_jobs, set_flag_worker_done].
    destruct (nonempty c); [|by rewrite set_flag_jobs, set_flag_worker_done].
    cbn [with_steamid64 jobs worker_done].
    match goal with
    | |- context [write_steamid64_to_file os dir c ?x] =>
        destruct (write_steamid64_frame os dir c x) as (_ & _ & _ & Hw & Hj)
    end.
    cbn zeta in Hw, Hj. rewrite Hw, Hj.
    by rewrite set_flag_jobs, set_flag_worker_done.
  - by rewrite set_flag_jobs, set_flag_worker_done.
Qed.

(** The login worker without a candidate keeps file system and
    identifier field. *)
Lemma login_run_no_candidate u p d out rc s :
  last (omap Re.search out) = None →
  fs (SteamCmdWorker_run os dir u p d (Started out rc) s) = fs s ∧
  steamid64 (SteamCmdWorker_run os dir u p d (Started out rc) s) = steamid64 s.
Proof.
  intros Hnone. unfold SteamCmdWorker_run.
  destruct (Fs.exists_ _ _); simpl; [|by rewrite set_flag_fs, set_flag_steamid64].
  rewrite scan_candidate, Hnone. cbn [steamid_candidate].
  by rewrite set_flag_fs, set_flag_steamid64.
Qed.

Lemma omap_search_none out :
  Forall (λ raw, Re.search raw = None) out → omap Re.search out = [].
Proof.
  induction 1 as [|raw out Hraw _ IH]; [done|].
  cbn [omap list_omap]. by rewrite Hraw.
Qed.

End WorkerExtras.



(** X9. A login worker whose process prints no identifier, or whose
    process never starts, keeps what is stored: the file system and the
    identifier field of the preferences stay as they were. *)
Theorem X9_no_identifier_keeps_stored (os : platform) (dir : Path)
    (u p : str) (d : nat) (beh : popen_result) (s : State) :
  (∀ out rc, beh = Started out rc → Forall (λ raw, Re.search raw = None) out) →
  fs (SteamCmdWorker_run os dir u p d beh s) = fs s ∧
  steamid64 (SteamCmdWorker_run os dir u p d beh s) = steamid64 s.
Proof.
  intros Hbeh. destruct beh as [e|out rc].
  - unfold SteamCmdWorker_run. destruct (Fs.exists_ _ _); simpl;
      by rewrite set_flag_fs, set_flag_steamid64.
  - apply login_run_no_candidate.
    by rewrite omap_search_none by (by eapply Hbeh).
Qed.

(** X9, evaluated on the output of a successful login that names no
    identifier. *)
Lemma X9_no_identifier_keeps_stored_witness :
  fs (SteamCmdWorker_run Windows demo_dir (lit "user") (lit "pw") 0
        (Started [lit "Redirecting stderr to log"; lit "Logged in OK";
                  lit "Waiting for user info...OK"] 0) demo0)
  = fs demo0.
Proof.
  apply (X9_no_identifier_keeps_stored Windows demo_dir (lit "user") (lit "pw") 0
           (Started [lit "Redirecting stderr to log"; lit "Logged in OK";
                     lit "Waiting for user info...OK"] 0) demo0).
  intros out rc [= <- <-]. repeat constructor.
Defined.




Section IsolationExtras.
Context (os : platform) (dir : Path).

Lemma same_refs_flags_distinct s s' :
  same_refs s s' → flags_distinct s → flags_distinct s'.
Proof. intros (_ & _ & Hj). unfold flags_distinct. by rewrite Hj. Qed.

Lemma spawn_flags_distinct w n s :
  Forall (λ t, (done_flag_of (j_worker t) < n)%nat) (jobs s) →
  flags_distinct s → done_flag_of w = n →
  flags_distinct (register_timer (start_worker w s)).
Proof.
  intros Hwf Hnd Hw. unfold flags_distinct. rewrite spawn_eq. cbn [jobs].
  rewrite !fmap_app. cbn. apply NoDup_app. split; [done|]. split.
  - intros x Hx Hx'. apply list_elem_of_singleton in Hx' as ->.
    apply list_elem_of_fmap in Hx as (w' & Hw' & Hin).
    apply list_elem_of_fmap in Hin as (t & -> & Hin).
    rewrite Forall_forall in Hwf. specialize (Hwf t Hin). simpl in Hwf. lia.
  - apply NoDup_singleton.
Qed.

Lemma reset_status_flags_distinct s :
  flags_distinct s → flags_distinct (reset_status s).
Proof. done. Qed.

(** Every step keeps the [done_flag]s distinct and in the store. *)
Lemma step_flags_distinct a s :
  wf s ∧ flags_distinct s → wf (step os dir a s) ∧ flags_distinct (step os dir a s).
Proof.
  intros [Hwf Hnd]. split; [by apply step_wf|].
  destruct a as [| |env|j beh|j].
  - rewrite login_click_order.
    apply (spawn_flags_distinct _ (length (dicts s))); [apply Hwf|done|done].
  - rewrite build_click_order. destruct (Fs.write_text _ _ _ _) as [f|e]; [|done].
    apply (spawn_flags_distinct _ (length (dicts s))); [apply Hwf|done|done].
  - eapply same_refs_flags_distinct; [apply detect_execute_same_refs|done].
  - unfold step. destruct (jobs s !! j) as [t|]; [|done].
    destruct (j_alive t); [|done].
    eapply same_refs_flags_distinct; [|exact Hnd].
    eapply same_refs_trans; [apply run_same_refs|].
    by apply alter_job_same_refs.
  - unfold step. destruct (jobs s !! j) as [t|]; [|done].
    destruct (j_timer t); [|done].
    pose proof (poll_same_refs dir t s) as Hp.
    destruct (poll dir t s) as [s1 r]. simpl in Hp.
    assert (flags_distinct s1) as H1 by (by eapply same_refs_flags_distinct).
    destruct r as [[]|e]; try done;
      (eapply same_refs_flags_distinct; [by apply alter_job_same_refs|done]).
Qed.

Lemma steps_flags_distinct acts s :
  wf s ∧ flags_distinct s →
  wf (steps os dir acts s) ∧ flags_distinct (steps os dir acts s).
Proof.
  revert s. induction acts as [|a acts IH]; intros s H; [done|].
  apply IH. by apply step_flags_distinct.
Qed.

Lemma initial_flags_distinct u p f : flags_distinct (initial u p f).
Proof. constructor. Qed.

End IsolationExtras.

(** X11. In every state the add-on can reach, each job has flags of its
    own: no two workers hold the same dict as their done_flag, so the
    thread of one job changes no flag in the dict of another; and no worker
    thread ever changes a running flag. *)
Theorem X11_flags_isolated (os : platform) (dir : Path) (acts : list action)
    (u0 p0 : str) (f0 : gmap Path node) (i j : nat) (ti tj : job)
    (beh : popen_result) (k : string) :
  let s := steps os dir acts (initial u0 p0 f0) in
  jobs s !! i = Some ti → jobs s !! j = Some tj → i ≠ j →
  done_flag_of (j_worker ti) ≠ done_flag_of (j_worker tj) ∧
  get_flag (run os dir (j_worker ti) beh s) (done_flag_of (j_worker tj)) k
  = get_flag s (done_flag_of (j_worker tj)) k ∧
  ∀ r, get_flag (run os dir (j_worker ti) beh s) r "running"
       = get_flag s r "running".
Proof.
  intros s Hi Hj Hij.
  destruct (steps_flags_distinct os dir acts (initial u0 p0 f0)) as [_ Hnd].
  { split; [apply initial_wf|apply initial_flags_distinct]. }
  fold s in Hnd. unfold flags_distinct in Hnd.
  assert (done_flag_of (j_worker ti) ≠ done_flag_of (j_worker tj)) as Hne.
  { intros Heq. apply Hij.
    eapply (NoDup_lookup _ i j); [exact Hnd| |].
    - by rewrite !list_lookup_fmap, Hi.
    - rewrite !list_lookup_fmap, Hj. simpl. by rewrite Heq. }
  split; [done|]. split.
  - apply run_get_flag_other. by right.
  - intros r. apply run_get_flag_other. by left.
Qed.

(** X11, evaluated: two login jobs started one after the other; the
    thread of the first succeeds and the ok flag of the second stays
    false. *)
Lemma X11_flags_isolated_witness :
  let s := steps Windows demo_dir [ClickLogin; ClickLogin] demo0 in
  get_flag (run Windows demo_dir (login_worker Windows demo_dir demo0)
              (Started [lit "Logged in OK"] 0) s) 2 "ok"
  = Some false.
Proof.
  intros s.
  destruct (X11_flags_isolated Windows demo_dir [ClickLogin; ClickLogin]
              (lit "user") (lit "pw") demo_fs 0 1
              (mkJob (login_worker Windows demo_dir demo0) true true)
              (mkJob (login_worker Windows demo_dir
                        (step Windows demo_dir ClickLogin demo0)) true true)
              (Started [lit "Logged in OK"] 0) "ok")
    as (_ & H & _); [by vm_compute | by vm_compute | done |].
  etrans; [exact H|]. by vm_compute.
Defined.


Section PollExtras.
Context (dir : Path).

(** A poller that finds no finished job to handle does nothing. *)
Lemma poll_inert t s :
  flag_true s (worker_done s) "running" && negb (j_alive t) = false →
  poll dir t s = (s, Ok Again).
Proof.
  intros H. unfold poll, _check_done, _check. rewrite H.
  by destruct (j_worker t).
Qed.

(** A poller that handles its finished job: what it changes. *)
Lemma poll_effect t s :
  flag_true s (worker_done s) "running" && negb (j_alive t) = true →
  let s' := (poll dir t s).1 in
  (poll dir t s).2 ≠ Ok Again ∧
  dicts s' = dicts (set_flag (worker_done s) "running" false s) ∧
  worker_done s' = worker_done s ∧ jobs s' = jobs s ∧ fs s' = fs s ∧
  status_lines s'
  = status_lines s ++
    match j_worker t with
    | SteamCmdWorker _ _ _ _ =>
        if flag_true s (worker_done s) "ok" then [] else [login_failed]
    | SteamCmdBuildWorker _ _ => []
    end ∧
  ∃ ev, events s' = events s ++ ev ∧ Forall starts_nothing ev.
Proof.
  intros Hc. apply andb_true_iff in Hc as [Hr Ha].
  apply negb_true_iff in Ha.
  set (s1 := set_flag (worker_done s) "running" false s).
  assert (status_lines s1 = status_lines s ∧ worker_done s1 = worker_done s ∧
          jobs s1 = jobs s ∧ fs s1 = fs s ∧ events s1 = events s)
    as (Hst & Hwd & Hj & Hfs & Hev).
  { unfold s1. by autorewrite with frame. }
  unfold poll. destruct (j_worker t) as [u p a d|a d] eqn:Hw.
  - destruct (flag_true s (worker_done s) "ok") eqn:Hok.
    + rewrite check_done_succeeded by done. fold s1. cbn [fst snd].
      split; [done|]. destruct (negb (nonempty (steamid64 s1))).
      * pose proof (read_steamid64_frame dir s1) as (Hd & Hs & _ & Hw' & Hj' & Hf').
        assert (∃ ev, events (read_steamid64_from_file dir s1).1 = events s1 ++ ev
                      ∧ Forall starts_nothing ev) as (ev & Hev' & Hsn).
        { unfold read_steamid64_from_file. destruct (Fs.exists_ _ _).
          - exists [ReadText (steamid64_txt_path dir)].
            split; [by destruct (Fs.read_text _ _)|by repeat constructor].
          - exists []. by rewrite app_nil_r. }
        destruct (read_steamid64_from_file dir s1) as [s2 existing].
        cbn [fst snd] in *.
        rewrite app_nil_r.
        assert (∃ ev', events s2 ++ [TagRedraw] = events s ++ ev'
                       ∧ Forall starts_nothing ev') as Hfin.
        { exists (ev ++ [TagRedraw]). rewrite Hev', Hev, <- app_assoc.
          split; [done|]. apply Forall_app. split; [done|]. by repeat constructor. }
        destruct (nonempty existing);
          cbn [log with_steamid64 dicts worker_done jobs fs status_lines events];
          repeat (split; [congruence|]); exact Hfin.
      * cbn [log dicts worker_done jobs fs status_lines events].
        rewrite app_nil_r. repeat (split; [done|]).
        exists [TagRedraw]. rewrite Hev. split; [done|]. by repeat constructor.
    + rewrite check_done_failed by done. fold s1. cbn [fst snd].
      cbn [log append_line with_status_lines dicts worker_done jobs fs
           status_lines events].
      split; [done|]. rewrite Hst. repeat (split; [done|]).
      exists [TagRedraw]. rewrite Hev. split; [done|]. by repeat constructor.
  - unfold _check. rewrite Hr, Ha, Hw. cbn [negb andb]. fold s1.
    assert (getattr (SteamCmdBuildWorker a d) "new_item_id"
            = Raise (AttributeError
                (lit "'SteamCmdBuildWorker' object has no attribute 'new_item_id'")))
      as ->.
    { unfold getattr.
      assert (instance_attrs (SteamCmdBuildWorker a d) !! "new_item_id"%string
              = None) as -> by (by vm_compute).
      rewrite bool_decide_eq_false_2; [done|].
      unfold thread_attrs. intros H. not_in_closed_list H. }
    cbn [fst snd]. rewrite app_nil_r. repeat (split; [done|]).
    exists []. rewrite app_nil_r. done.
Qed.

End PollExtras.



(** X13. A poller never writes a file and never starts anything: the file
    system and the jobs are as before it ran, and the effects it adds are
    reads, reports and redraw requests only. *)
Theorem X13_poller_starts_nothing (dir : Path) (t : job) (s : State) :
  fs (poll dir t s).1 = fs s ∧
  jobs (poll dir t s).1 = jobs s ∧
  ∃ ev, events (poll dir t s).1 = events s ++ ev ∧ Forall starts_nothing ev.
Proof.
  destruct (flag_true s (worker_done s) "running" && negb (j_alive t)) eqn:Hc.
  - destruct (poll_effect dir t s Hc) as (_ & _ & _ & Hj & Hf & _ & Hev). done.
  - rewrite poll_inert by done. split; [done|]. split; [done|].
    exists []. by rewrite app_nil_r.
Qed.


Section TraceExtras.
Context (os : platform) (dir : Path).

(** What a worker thread leaves in a log that it found empty. *)
Lemma run_status_lines_fresh w beh s :
  status_lines s = [] →
  status_lines (run os dir w beh s) = job_lines os dir (fs s) beh.
Proof.
  intros Hs. unfold job_lines.
  destruct (Fs.exists_ (fs s) (bundled_steamcmd_path dir)) eqn:Hex.
  - destruct beh as [e|out rc].
    + destruct w; simpl; unfold SteamCmdWorker_run, SteamCmdBuildWorker_run;
        rewrite Hex; simpl; rewrite set_flag_status_lines; simpl; by rewrite Hs.
    + rewrite run_started_status_lines by done. rewrite Hs.
      apply push_lines_window. simpl. unfold tail_limit. lia.
  - rewrite run_missing by done. rewrite set_flag_status_lines. simpl.
    by rewrite Hs.
Qed.

(** A job from the start of its thread to the end of its poller, on a
    state whose log is empty and whose flags are those of the new job. *)
Lemma job_trace w beh s0 :
  status_lines s0 = [] →
  done_flag_of w = worker_done s0 →
  get_flag s0 (worker_done s0) "running" = Some true →
  let j := length (jobs s0) in
  let s1 := register_timer (start_worker w s0) in
  let r := run os dir w beh s1 in
  let s3 := step os dir (TimerFires j) (step os dir (ThreadRuns j beh) s1) in
  jobs s3 = jobs s0 ++ [mkJob w false false] ∧
  worker_done s3 = worker_done s0 ∧
  get_flag s3 (worker_done s0) "running" = Some false ∧
  get_flag s3 (worker_done s0) "ok" = get_flag r (worker_done s0) "ok" ∧
  fs s3 = fs r ∧
  status_lines s3
  = job_lines os dir (fs s0) beh ++
    match w with
    | SteamCmdWorker _ _ _ _ =>
        if flag_true r (worker_done s0) "ok" then [] else [login_failed]
    | SteamCmdBuildWorker _ _ => []
    end ∧
  ∃ ev, events s3 = events r ++ ev ∧ Forall starts_nothing ev.
Proof.
  intros Hlog Hd Hrun j s1 r s3.
  assert (Hs1 : s1 = _) by apply spawn_eq.
  assert (Hj1 : jobs s1 !! j = Some (mkJob w true true)).
  { rewrite Hs1. cbn [jobs]. apply lookup_snoc. }
  destruct (run_jobs os dir w beh s1) as [Hjr Hwr]. fold r in Hjr, Hwr.
  assert (Hw1 : worker_done s1 = worker_done s0) by (by rewrite Hs1).
  assert (Hlog1 : status_lines s1 = []) by (by rewrite Hs1).
  assert (Hfs1 : fs s1 = fs s0) by (by rewrite Hs1).
  set (s2 := step os dir (ThreadRuns j beh) s1).
  assert (Hs2 : s2 = with_jobs (jobs s0 ++ [mkJob w false true]) r).
  { unfold s2, step. rewrite Hj1. cbn [j_alive j_worker j_timer]. fold r.
    rewrite Hjr, Hs1. cbn [jobs]. unfold j. by rewrite alter_snoc. }
  assert (Hj2 : jobs s2 !! j = Some (mkJob w false true)).
  { rewrite Hs2. cbn [jobs with_jobs]. apply lookup_snoc. }
  assert (Hrun2 : get_flag s2 (worker_done s2) "running" = Some true).
  { rewrite Hs2. cbn [worker_done with_jobs]. rewrite Hwr, Hw1.
    rewrite (get_flag_ext _ r) by done. unfold r.
    rewrite run_get_flag_other by (by left).
    rewrite (get_flag_ext s1 s0) by (by rewrite Hs1). done. }
  assert (Hc : flag_true s2 (worker_done s2) "running"
               && negb (j_alive (mkJob w false true)) = true).
  { unfold flag_true. by rewrite Hrun2. }
  pose proof (poll_effect dir _ s2 Hc)
    as (Hres & Hdp & Hwp & Hjp & Hfp & Hstp & ev & Hevp & Hsn).
  assert (Hs3 : s3 = with_jobs (jobs s0 ++ [mkJob w false false])
                               (poll dir (mkJob w false true) s2).1).
  { unfold s3. fold s2. unfold step. rewrite Hj2. cbn [j_timer].
    destruct (poll dir (mkJob w false true) s2) as [s' res]. cbn [fst snd] in *.
    assert (jobs s' = jobs s0 ++ [mkJob w false true]) as Hjs'.
    { rewrite Hjp, Hs2. done. }
    destruct res as [[]|e]; try done; rewrite Hjs'; unfold j;
      by rewrite alter_snoc. }
  assert (Hw2 : worker_done s2 = worker_done s0).
  { rewrite Hs2. cbn [worker_done with_jobs]. congruence. }
  assert (Hlt : (worker_done s0 < length (dicts s2))%nat).
  { rewrite <- Hw2. eapply flag_true_lt.
    unfold flag_true. by rewrite Hrun2. }
  rewrite Hs3. cbn [jobs worker_done fs status_lines events with_jobs].
  split; [done|]. split; [congruence|].
  rewrite !(get_flag_ext (with_jobs _ _)
              (set_flag (worker_done s2) "running" false s2)) by done.
  rewrite Hw2. split; [by apply get_set_flag|]. split.
  { rewrite get_set_flag_other by (by left). by rewrite Hs2. }
  split; [by rewrite Hfp, Hs2|]. split.
  2: { exists ev. split; [|done]. by rewrite Hevp, Hs2. }
  rewrite Hstp. cbn [j_worker].
  assert (status_lines s2 = job_lines os dir (fs s0) beh) as ->.
  { rewrite Hs2. cbn [status_lines with_jobs]. unfold r.
    rewrite run_status_lines_fresh by done. by rewrite Hfs1. }
  assert (flag_true s2 (worker_done s2) "ok" = flag_true r (worker_done s0) "ok")
    as ->; [|done].
  unfold flag_true. rewrite Hw2, Hs2. done.
Qed.

Lemma reset_status_flags s :
  status_lines (reset_status s) = [] ∧
  worker_done (reset_status s) = length (dicts s) ∧
  get_flag (reset_status s) (length (dicts s)) "running" = Some true ∧
  (length (dicts s) < length (dicts (reset_status s)))%nat.
Proof.
  rewrite reset_status_eq. cbn [status_lines worker_done dicts].
  rewrite get_flag_fresh, length_app. simpl.
  split; [done|]. split; [done|]. split; [done|lia].
Qed.

End TraceExtras.



Section BuildExtras.
Context (os : platform) (dir : Path).

(** The manifest is not the executable. *)
Lemma vdf_path_not_exe : joinpath dir "workshop.vdf" ≠ bundled_steamcmd_path dir.
Proof.
  unfold bundled_steamcmd_path, joinpath. intros H.
  apply (f_equal length) in H. rewrite !length_app in H. simpl in H. lia.
Qed.

Lemma exe_exists_beside_manifest f n :
  Fs.exists_ (<[joinpath dir "workshop.vdf" := n]> f) (bundled_steamcmd_path dir)
  = Fs.exists_ f (bundled_steamcmd_path dir).
Proof.
  unfold Fs.exists_. by rewrite lookup_insert_ne by apply vdf_path_not_exe.
Qed.

Lemma not_elem_of_forallb (c : ascii) (l : str) :
  forallb (λ x, negb (Ascii.eqb x c)) l = true → c ∉ l.
Proof.
  intros H Hin. rewrite forallb_forall in H.
  apply list_elem_of_In in Hin. specialize (H c Hin).
  by rewrite Ascii.eqb_refl in H.
Qed.

(** The manifest reads back as it was written. *)
Lemma vdf_text_roundtrip : TextIO.nl_in (TextIO.nl_out os vdf_text) = vdf_text.
Proof. apply TextIOFacts.nl_roundtrip, not_elem_of_forallb. by vm_compute. Qed.

(** What the build worker does, with its effects. *)
Lemma build_run_effect a d beh s :
  (d < length (dicts s))%nat →
  let r := SteamCmdBuildWorker_run os dir a d beh s in
  get_flag r d "ok"
  = Some (Fs.exists_ (fs s) (bundled_steamcmd_path dir) &&
          match beh with
          | Started _ rc => (rc =? 0)%Z
          | PopenRaises _ => false
          end) ∧
  fs r = fs s ∧
  events r
  = events s ++
    (if Fs.exists_ (fs s) (bundled_steamcmd_path dir)
     then [Popen a (path_str os (parent (bundled_steamcmd_path dir)))]
     else []).
Proof.
  intros Hd r. unfold r, SteamCmdBuildWorker_run.
  destruct (Fs.exists_ _ _); simpl.
  - destruct beh as [e|out rc];
      rewrite get_set_flag, set_flag_fs, set_flag_events; done.
  - rewrite get_set_flag, set_flag_fs, set_flag_events, app_nil_r; done.
Qed.

End BuildExtras.






Section BoxExtras.

Lemma lastn_suffix_mono {A} (m n : nat) (l : list A) :
  (m ≤ n)%nat → lastn m l `suffix_of` lastn n l.
Proof.
  intros Hmn. unfold lastn.
  replace (length l - m)%nat
    with ((length l - n) + (length l - m - (length l - n)))%nat by lia.
  rewrite <- drop_drop. apply suffix_drop.
Qed.

Lemma status_box_idle n s :
  flag_true s (worker_done s) "running" = false →
  status_box n s = LineLabel <$> lastn n (status_lines s).
Proof. intros H. unfold status_box. by rewrite H. Qed.

End BoxExtras.



Section DetectExtras.
Context (os : platform) (dir : Path).

(** The three candidates, none dropped. *)
Lemma default_steam_paths_eq env :
  _default_steam_paths os env
  = [ joinpath (joinpath (joinpath
        (Path_of (getenv env "PROGRAMFILES(X86)" "C:\\Program Files (x86)"))
        "Steam") "config") "loginusers.vdf";
      joinpath (joinpath (joinpath
        (Path_of (getenv env "PROGRAMFILES" "C:\\Program Files"))
        "Steam") "config") "loginusers.vdf";
      Path_of (getenv env "STEAM_CONFIG" EmptyString) ].
Proof.
  unfold _default_steam_paths.
  set (a := getenv env "PROGRAMFILES(X86)" _).
  set (b := getenv env "PROGRAMFILES" _).
  set (c := getenv env "STEAM_CONFIG" _).
  assert (∀ x, path_str os (joinpath (joinpath (joinpath (Path_of x)
            "Steam") "config") "loginusers.vdf") ≠ []) as H1.
  { intros x. destruct (path_str_nonempty os (joinpath (joinpath (joinpath
             (Path_of x) "Steam") "config") "loginusers.vdf")) as [H|[rest H]];
      [done|].
    unfold Path_of, joinpath in H. case_decide; simpl in H; simplify_eq. }
  assert (path_str os (Path_of c) ≠ []) as H2.
  { destruct (path_str_nonempty os (Path_of c)) as [H|[rest H]]; [done|].
    unfold Path_of in H. case_decide; simplify_eq. }
  rewrite !filter_cons_True by auto. done.
Qed.

(** What the loop finds is an identifier, and the loop writes nothing. *)
Lemma detect_loop_found cands s s1 f :
  detect_loop os cands s = (s1, Some f) → identifier f ∧ fs s1 = fs s.
Proof.
  revert s. induction cands as [|vdf rest IH]; intros s; [done|].
  cbn [detect_loop]. destruct (Fs.exists_ _ _); [|apply IH].
  cbn [fs log]. destruct (Fs.read_text _ _) as [txt|e].
  - pose proof (ReSpec.findall_from_identifiers 0 None txt) as Hall.
    fold (Re.findall txt) in Hall.
    destruct (Re.findall txt) as [|m0 ms].
    + intros H. by apply IH in H.
    + intros [= <- <-]. split; [|done]. by apply Forall_cons in Hall as [? _].
  - intros H. by apply IH in H.
Qed.

Lemma detect_execute_finished env s :
  (detect_execute os dir env s).2 = FINISHED →
  ∃ s1 f, detect_loop os (_default_steam_paths os env) s = (s1, Some f) ∧
          nonempty f = true.
Proof.
  unfold detect_execute.
  destruct (detect_loop _ _ _) as [s1 [f|]]; [|done].
  destruct (nonempty f) eqn:Hf; [|done]. intros _. by exists s1, f.
Qed.

End DetectExtras.

(** X19. The filter of [_default_steam_paths] drops nothing: the result is
    always the three candidates, in order, and none of them prints as the
    empty text, also when STEAM_CONFIG is unset or empty and the third
    candidate is the path without parts. *)
Theorem X19_default_paths_all_kept (os : platform) (env : gmap string string) :
  _default_steam_paths os env
  = [ joinpath (joinpath (joinpath
        (Path_of (getenv env "PROGRAMFILES(X86)" "C:\\Program Files (x86)"))
        "Steam") "config") "loginusers.vdf";
      joinpath (joinpath (joinpath
        (Path_of (getenv env "PROGRAMFILES" "C:\\Program Files"))
        "Steam") "config") "loginusers.vdf";
      Path_of (getenv env "STEAM_CONFIG" EmptyString) ] ∧
  Forall (λ p, path_str os p ≠ []) (_default_steam_paths os env).
Proof.
  split; [apply default_steam_paths_eq|].
  unfold _default_steam_paths. apply Forall_forall. intros p Hp.
  by apply list_elem_of_filter in Hp as [? _].
Qed.

(** X20. A detection that finishes has found an identifier (7, 6 and
    fifteen digits) and persisted it: the preferences hold it and, when the
    identifier file can be written, the file holds it with one line
    separator and a read of the store returns it. *)
Theorem X20_detection_persists (os : platform) (dir : Path)
    (env : gmap string string) (s : State) :
  (detect_execute os dir env s).2 = FINISHED →
  Fs.writable (fs s) (steamid64_txt_path dir) = true →
  let s' := (detect_execute os dir env s).1 in
  identifier (steamid64 s') ∧
  (read_steamid64_from_file dir s').2 = steamid64 s' ∧
  fs s' = <[steamid64_txt_path dir := Regular (steamid64 s' ++ linesep os)]> (fs s).
Proof.
  intros Hfin Hw s'.
  destruct (detect_execute_finished os dir env s Hfin) as (s1 & f & Hloop & Hne).
  destruct (detect_loop_found os _ s s1 f Hloop) as [Hid Hfs1].
  destruct (detect_execute_found os dir env s s1 f Hloop Hne) as (_ & Hsid & _).
  fold s' in Hsid. rewrite Hsid.
  assert (s' = log (Report "INFO" (lit "Detected SteamID64: " ++ f))
                 (write_steamid64_to_file os dir f (with_steamid64 f s1))) as Hs'.
  { unfold s', detect_execute. by rewrite Hloop, Hne. }
  assert (Fs.writable (fs (with_steamid64 f s1)) (steamid64_txt_path dir) = true)
    as Hw1 by (by cbn [fs with_steamid64]; rewrite Hfs1).
  assert (∀ x, x ∈ f → PyStr.isspace x = false) as Hns
    by (intros x; by apply ReSpec.identifier_no_space).
  split; [done|]. split.
  - rewrite Hs'.
    rewrite (read_steamid64_ext dir _
               (write_steamid64_to_file os dir f (with_steamid64 f s1))) by done.
    rewrite store_roundtrip; [by apply ReSpec.identifier_strip|done|].
    rewrite ReSpec.identifier_strip by done.
    intros Hcr. by specialize (Hns _ Hcr).
  - rewrite Hs'. cbn [fs log]. rewrite write_steamid64_fs by done.
    cbn [fs with_steamid64]. rewrite Hfs1.
    rewrite ReSpec.identifier_strip by done.
    rewrite nl_out_line; [done|]. intros Hlf. by specialize (Hns _ Hlf).
Qed.

(** X20, evaluated on the host of [detect_demo]. *)
Lemma X20_detection_persists_witness :
  (read_steamid64_from_file demo_dir
     (detect_execute Windows demo_dir detect_env (initial [] [] detect_fs)).1).2
  = accepted_id.
Proof.
  destruct (X20_detection_persists Windows demo_dir detect_env
              (initial [] [] detect_fs)) as (_ & H & _);
    [by vm_compute|by vm_compute|].
  etrans; [exact H|]. by vm_compute.
Defined.


Section LaunchExtras.
Context (os : platform) (dir : Path).

(** The effects of the login worker: at most one launch, then at most a
    diagnostic of the identifier store. *)
Lemma login_run_events u p d beh s :
  ∃ ev, Forall starts_nothing ev ∧
    events (SteamCmdWorker_run os dir u p d beh s)
    = events s ++
      (if Fs.exists_ (fs s) (bundled_steamcmd_path dir)
       then [Popen [path_str os (bundled_steamcmd_path dir); lit "+login"; u; p;
                    lit "+quit"]
                   (path_str os (parent (bundled_steamcmd_path dir)))]
       else []) ++ ev.
Proof.
  unfold SteamCmdWorker_run. destruct (Fs.exists_ _ _); simpl.
  2: { exists []. rewrite set_flag_events. simpl. by rewrite app_nil_r. }
  destruct beh as [e|out rc].
  { exists []. rewrite set_flag_events. done. }
  destruct (steamid_candidate _) as [c|].
  2: { exists []. rewrite set_flag_events. done. }
  destruct (nonempty c).
  2: { exists []. rewrite set_flag_events. done. }
  cbn [with_steamid64 events]. unfold write_steamid64_to_file.
  destruct (Fs.write_text _ _ _ _) as [f|e].
  - exists []. cbn [events with_fs]. rewrite set_flag_events. done.
  - eexists [Print _]. split; [by repeat constructor|].
    cbn [events log]. rewrite set_flag_events. cbn [events log with_status_lines].
    by rewrite <- app_assoc.
Qed.

(** The loop of the detection changes nothing but the record of effects. *)
Lemma detect_loop_frame cands s :
  let s1 := (detect_loop os cands s).1 in
  status_lines s1 = status_lines s ∧ dicts s1 = dicts s ∧
  worker_done s1 = worker_done s ∧ jobs s1 = jobs s ∧ fs s1 = fs s ∧
  steamid64 s1 = steamid64 s.
Proof.
  revert s. induction cands as [|vdf rest IH]; intros s; [done|].
  cbn [detect_loop]. destruct (Fs.exists_ _ _); [|apply IH].
  cbn [fs log]. destruct (Fs.read_text _ _) as [txt|e].
  - destruct (Re.findall txt); [|done]. apply (IH (log (ReadText vdf) s)).
  - match goal with
    | |- context [detect_loop os rest ?x] => apply (IH x)
    end.
Qed.

End LaunchExtras.

(** X15. A click on Login followed by the run of its thread launches the
    process at most once, and with exactly the executable, +login, the
    username and password as they were at the click, and +quit, in the
    directory of the executable; when the executable is missing nothing is
    launched. *)
Theorem X15_login_launch (os : platform) (dir : Path) (beh : popen_result)
    (s : State) :
  let j := length (jobs s) in
  let s2 := steps os dir [ClickLogin; ThreadRuns j beh] s in
  ∃ ev, Forall starts_nothing ev ∧
    events s2
    = events s ++ [ThreadStart j; TimerRegister j]
      ++ (if Fs.exists_ (fs s) (bundled_steamcmd_path dir)
          then [Popen [path_str os (bundled_steamcmd_path dir); lit "+login";
                       steam_username s; steam_password s; lit "+quit"]
                      (path_str os (parent (bundled_steamcmd_path dir)))]
          else [])
      ++ ev.
Proof.
  intros j s2.
  assert (s2 = step os dir (ThreadRuns j beh) (step os dir ClickLogin s))
    as -> by done.
  rewrite login_click. unfold step at 1. cbn [jobs]. unfold j.
  rewrite lookup_snoc. cbn [j_alive j_worker with_jobs events run login_worker].
  match goal with
  | |- context [SteamCmdWorker_run os dir ?u ?p ?d beh ?x] =>
      destruct (login_run_events os dir u p d beh x) as (ev & Hsn & Hev)
  end.
  exists ev. split; [done|]. rewrite Hev. cbn [events fs]. by rewrite <- !app_assoc.
Qed.

(** X21. Detection stands apart from the jobs: whatever it finds, it
    leaves the status log, the flag dicts, their binding and the jobs as
    they were. *)
Theorem X21_detection_leaves_jobs_alone (os : platform) (dir : Path)
    (env : gmap string string) (s : State) :
  let s' := (detect_execute os dir env s).1 in
  status_lines s' = status_lines s ∧ dicts s' = dicts s ∧
  worker_done s' = worker_done s ∧ jobs s' = jobs s.
Proof.
  intros s'. unfold s', detect_execute.
  pose proof (detect_loop_frame os (_default_steam_paths os env) s)
    as (Hst & Hd & Hw & Hj & _).
  destruct (detect_loop _ _ _) as [s1 found]. cbn [fst] in *.
  destruct found as [f|]; [|done].
  destruct (nonempty f); [|done]. cbn [fst log status_lines dicts worker_done jobs].
  destruct (write_steamid64_frame os dir f (with_steamid64 f s1))
    as (-> & -> & _ & -> & ->).
  done.
Qed.
